(** * Cart and session stores of the storefront client

    A shallow embedding of the two zustand stores of the mobile client:
    the cart store ([useCartStore], with [addToCart], [removeFromCart],
    [updateCartQuantity], [getCartTotal], [getCartItemCount], [clearCart])
    and the session store ([useAuthStore], with [loginUser], [loginAdmin],
    [logout], [loadStoredAuth], [isCustomer], [isAdmin]).

    Store actions are written in a small state-and-exception monad that
    plays the role of zustand's [set]/[get] together with JavaScript's
    [throw]/[try]/[catch]/[await]. *)

From Stdlib Require Import ZArith String List Bool Lia.
From stdpp Require Import base gmap strings list.

Import ListNotations.
Local Open Scope Z_scope.

(* ===================================================================== *)
(** ** JavaScript control flow: completions, state, try/catch           *)
(* ===================================================================== *)

Module Js.

(** How the evaluation of a JavaScript expression or statement ends:
    normally with a value, or abruptly with a thrown value (a rejected
    promise at an [await] is the same thing). *)
Inductive completion (A : Type) : Type :=
| Normal (a : A)
| Throw (error : string).
Global Arguments Normal {A} a.
Global Arguments Throw {A} error.

(** A computation over a store of type [S]. State changes made before a
    [throw] stay made, as in JavaScript. *)
Definition js (S A : Type) : Type := S -> completion A * S.

Definition ret {S A} (a : A) : js S A := fun s => (Normal a, s).

Definition bind {S A B} (m : js S A) (k : A -> js S B) : js S B :=
  fun s =>
    match m s with
    | (Normal a, s') => k a s'
    | (Throw e, s') => (Throw e, s')
    end.

Definition throw {S A} (e : string) : js S A := fun s => (Throw e, s).

(** [try { body } catch (error) { handler error }] *)
Definition try_catch {S A} (body : js S A) (handler : string -> js S A) : js S A :=
  fun s =>
    match body s with
    | (Normal a, s') => (Normal a, s')
    | (Throw e, s') => handler e s'
    end.

(** zustand's [get()] and [set(fn)] / [set(value)]. *)
Definition get {S} : js S S := fun s => (Normal s, s).
Definition set {S} (f : S -> S) : js S unit := fun s => (Normal tt, f s).

(** Lift a completion (a pure expression that may throw) into [js]. *)
Definition lift {S A} (c : completion A) : js S A := fun s => (c, s).

(** The store left by a computation, and how it completed. *)
Definition exec {S A} (m : js S A) (s : S) : S := snd (m s).
Definition eval {S A} (m : js S A) (s : S) : completion A := fst (m s).

End Js.

Import Js.

Declare Scope js_scope.
Delimit Scope js_scope with js.
Notation "'let*' x ':=' m 'in' k" := (bind m (fun x => k))
  (at level 10, x name, m at level 100, k at level 200) : js_scope.

(* ===================================================================== *)
(** ** The cart store                                                    *)
(* ===================================================================== *)

(** JavaScript numbers used as currency amounts.  Prices are decimal
    amounts combined with floating-point [+] and [*]; nothing below relies
    on any law of these operations, so they are kept abstract.  Quantities
    and inventory counts are integers, on which JavaScript's arithmetic and
    comparisons are exact; they are modelled by [Z]. *)
Class JsNumber : Type := {
  number : Type;
  num_zero : number;
  num_add : number -> number -> number;
  num_mul : number -> number -> number;
  num_of_Z : Z -> number
}.

Module Cart.
Section WithNumbers.
Context {Num : JsNumber}.

Record Product : Type := {
  id : string;
  name : string;
  description : string;
  price : number;
  image_base64 : string;
  inventory : Z
}.

Record CartItem : Type := {
  product : Product;
  quantity : Z
}.

(** The data part of the store object (its methods never change). *)
Record CartStore : Type := { cart : list CartItem }.

Definition initial : CartStore := {| cart := [] |}.

(** [item => item.product.id === productId] *)
Definition has_id (productId : string) (item : CartItem) : bool :=
  String.eqb (id (product item)) productId.

(** [{ ...item, quantity: q }] *)
Definition with_quantity (item : CartItem) (q : Z) : CartItem :=
  {| product := product item; quantity := q |}.

Definition addToCart (prod : Product) : js CartStore unit :=
  set (fun state =>
    match List.find (has_id (id prod)) (cart state) with
    | Some existingItem =>
        if quantity existingItem >=? inventory prod then
          state
        else
          {| cart := List.map (fun item =>
                        if has_id (id prod) item
                        then with_quantity item (quantity item + 1)
                        else item) (cart state) |}
    | None =>
        if inventory prod =? 0 then
          state
        else
          {| cart := cart state ++ [ {| product := prod; quantity := 1 |} ] |}
    end).

Definition removeFromCart (productId : string) : js CartStore unit :=
  set (fun state =>
    {| cart := List.filter (fun item => negb (has_id productId item)) (cart state) |}).

(** [product && newQuantity > product.inventory], where [product] is the
    snapshot of the first matching item or [undefined]. *)
Definition exceeds (newQuantity : Z) (found : option Product) : bool :=
  match found with
  | Some prod => newQuantity >? inventory prod
  | None => false
  end.

Definition updateCartQuantity (productId : string) (newQuantity : Z)
  : js CartStore unit :=
  if newQuantity =? 0 then
    (let* _ := get in removeFromCart productId)%js
  else
    set (fun state =>
      let found := option_map product (List.find (has_id productId) (cart state)) in
      if exceeds newQuantity found then
        state
      else
        {| cart := List.map (fun item =>
                      if has_id productId item
                      then with_quantity item newQuantity
                      else item) (cart state) |}).

Definition getCartTotal : js CartStore number :=
  (let* state := get in
   ret (fold_left
          (fun sum item =>
             num_add sum (num_mul (price (product item)) (num_of_Z (quantity item))))
          (cart state) num_zero))%js.

Definition getCartItemCount : js CartStore Z :=
  (let* state := get in
   ret (fold_left (fun sum item => sum + quantity item) (cart state) 0))%js.

Definition clearCart : js CartStore unit :=
  set (fun _ => {| cart := [] |}).

(** *** Sequences of calls and the properties stated about them *)

Inductive call : Type :=
| AddToCart (prod : Product)
| RemoveFromCart (productId : string)
| UpdateCartQuantity (productId : string) (newQuantity : Z)
| ClearCart.

Definition perform (c : call) : js CartStore unit :=
  match c with
  | AddToCart prod => addToCart prod
  | RemoveFromCart productId => removeFromCart productId
  | UpdateCartQuantity productId newQuantity => updateCartQuantity productId newQuantity
  | ClearCart => clearCart
  end.

(** The store after a sequence of calls, made one after the other. *)
Fixpoint run (calls : list call) (s : CartStore) : CartStore :=
  match calls with
  | [] => s
  | c :: rest => run rest (exec (perform c) s)
  end.

(** The first item carrying a product id, as [Array.prototype.find] gives it. *)
Definition find_item (productId : string) (s : CartStore) : option CartItem :=
  List.find (has_id productId) (cart s).

(** A product record as the backend issues it: the inventory is a count,
    never negative (the admin form refuses to submit a negative one). *)
Definition valid_product (prod : Product) : bool := 0 <=? inventory prod.

(** [1 <= quantity <= product.inventory] for one item, and for a cart. *)
Definition within_bounds (item : CartItem) : bool :=
  (1 <=? quantity item) && (quantity item <=? inventory (product item)).

Definition bounds_hold (s : CartStore) : bool :=
  forallb within_bounds (cart s).

(** The product ids of a cart, in order. *)
Definition ids (l : list CartItem) : list string :=
  List.map (fun item => id (product item)) l.

(** Calls under which the quantity bounds are kept: a product handed to
    [addToCart] is valid and its inventory does not exceed the inventory
    of the snapshot already stored under its id, and a new quantity is
    not negative. *)
Definition admissible (s : CartStore) (c : call) : bool :=
  match c with
  | AddToCart prod =>
      valid_product prod &&
      match find_item (id prod) s with
      | Some item => inventory prod <=? inventory (product item)
      | None => true
      end
  | UpdateCartQuantity _ newQuantity => 0 <=? newQuantity
  | RemoveFromCart _ | ClearCart => true
  end.

Fixpoint admissible_run (calls : list call) (s : CartStore) : bool :=
  match calls with
  | [] => true
  | c :: rest => admissible s c && admissible_run rest (exec (perform c) s)
  end.

(** [{ ...item, quantity: q }] on the items with the given id. *)
Definition set_quantity (productId : string) (q : Z) (l : list CartItem)
  : list CartItem :=
  List.map (fun item => if has_id productId item then with_quantity item q else item) l.

(** The function mapped over the cart by [addToCart] and
    [updateCartQuantity]: a new quantity for the items under the id. *)
Definition bump (productId : string) (g : CartItem -> Z) (item : CartItem) : CartItem :=
  if has_id productId item then with_quantity item (g item) else item.

(** A cart in which no two items share a product id, with every
    quantity within its bounds. *)
Definition well_formed (s : CartStore) : Prop :=
  List.NoDup (ids (cart s)) /\ bounds_hold s = true.

(** How many line items carry the given id. *)
Definition occurrences (productId : string) (l : list CartItem) : Z :=
  Z.of_nat (length (List.filter (has_id productId) l)).

End WithNumbers.
End Cart.

(* ===================================================================== *)
(** ** The session store                                                 *)
(* ===================================================================== *)

(** The device key/value storage ([AsyncStorage]) is an external service.
    Its three batch calls are taken as an interface over an arbitrary
    device state; a rejected promise is a [Throw] at the [await].
    [multiGet] resolves to a list of [key, value-or-null] pairs. *)
Class AsyncStorage : Type := {
  device : Type;
  multiSet : list (string * string) -> js device unit;
  multiRemove : list string -> js device unit;
  multiGet : list string -> js device (list (string * option string))
}.

Module Auth.

Record User : Type := {
  id : string;
  name : string;
  phone : string
}.

Record Admin : Type := {
  admin_id : string;
  username : string;
  full_name : string
}.

(** ['customer' | 'admin'] *)
Inductive UserType : Type := customer | admin_type.

Definition tag (t : UserType) : string :=
  match t with
  | customer => "customer"
  | admin_type => "admin"
  end.

(** [JSON.stringify] on the two record types and [JSON.parse] of a stored
    payload.  [JSON.parse] throws on malformed text and may also return
    [null] (for the text [null]); its result is stored unchecked. *)
Class Json : Type := {
  stringify_user : User -> string;
  stringify_admin : Admin -> string;
  parse_user : string -> completion (option User);
  parse_admin : string -> completion (option Admin)
}.

(** The data fields of the store object. *)
Record AuthStore : Type := {
  isLoggedIn : bool;
  user : option User;
  admin : option Admin;
  token : option string;
  userType : option UserType
}.

Definition initial : AuthStore :=
  {| isLoggedIn := false; user := None; admin := None;
     token := None; userType := None |}.

Section WithDevice.
Context {Storage : AsyncStorage} {J : Json}.

(** Everything an action can touch: the in-memory store, the device
    storage and the console. *)
Record World : Type := {
  store : AuthStore;
  disk : device;
  console : list string
}.

Definition boot (d : device) : World :=
  {| store := initial; disk := d; console := [] |}.

(** [await AsyncStorage.f(...)]: run a storage call on the device. *)
Definition await {A} (call : js device A) : js World A :=
  fun w =>
    let (r, d) := call (disk w) in
    (r, {| store := store w; disk := d; console := console w |}).

(** zustand's [set({...})] with all five data fields given. *)
Definition set_store (s : AuthStore) : js World unit :=
  set (fun w => {| store := s; disk := disk w; console := console w |}).

Definition get_store : js World AuthStore :=
  (let* w := get in ret (store w))%js.

(** [console.error(message, error)] *)
Definition console_error (message error : string) : js World unit :=
  set (fun w => {| store := store w; disk := disk w;
                   console := console w ++ [String.append message error] |}).

Definition loginUser (tok : string) (u : User) : js World unit :=
  try_catch
    (let* _ := await (multiSet [ ("auth_token", tok);
                          ("user_data", stringify_user u);
                          ("user_type", "customer") ]) in
     set_store {| isLoggedIn := true;
                  token := Some tok;
                  user := Some u;
                  admin := None;
                  userType := Some customer |})%js
    (fun error => console_error "Error saving user auth data:" error).

Definition loginAdmin (tok : string) (a : Admin) : js World unit :=
  try_catch
    (let* _ := await (multiSet [ ("auth_token", tok);
                          ("admin_data", stringify_admin a);
                          ("user_type", "admin") ]) in
     set_store {| isLoggedIn := true;
                  token := Some tok;
                  admin := Some a;
                  user := None;
                  userType := Some admin_type |})%js
    (fun error => console_error "Error saving admin auth data:" error).

Definition logout : js World unit :=
  try_catch
    (let* _ := await (multiRemove [ "auth_token"; "user_data"; "admin_data"; "user_type" ]) in
     set_store {| isLoggedIn := false;
                  user := None;
                  admin := None;
                  token := None;
                  userType := None |})%js
    (fun error => console_error "Error clearing auth data:" error).

(** [storedData[i][1]]: the value of the [i]-th pair; indexing past the
    end gives [undefined], whose member access throws a [TypeError]. *)
Definition value_at (storedData : list (string * option string)) (i : nat)
  : completion (option string) :=
  match storedData !! i with
  | Some (_, v) => Normal v
  | None => Throw "TypeError"
  end.

(** Truthiness of a [string | null]: neither [null] nor the empty string. *)
Definition truthy (v : option string) : option string :=
  match v with
  | Some s => if String.eqb s "" then None else Some s
  | None => None
  end.

Definition loadStoredAuth : js World unit :=
  try_catch
    (let* storedData :=
       await (multiGet [ "auth_token"; "user_data"; "admin_data"; "user_type" ]) in
     let* tok := lift (value_at storedData 0) in
     let* userData := lift (value_at storedData 1) in
     let* adminData := lift (value_at storedData 2) in
     let* type := lift (value_at storedData 3) in
     match truthy tok, truthy type with
     | Some tok', Some type' =>
         match String.eqb type' "customer", truthy userData with
         | true, Some userData' =>
             let* parsed := lift (parse_user userData') in
             set_store {| isLoggedIn := true;
                          token := Some tok';
                          user := parsed;
                          admin := None;
                          userType := Some customer |}
         | _, _ =>
             match String.eqb type' "admin", truthy adminData with
             | true, Some adminData' =>
                 let* parsed := lift (parse_admin adminData') in
                 set_store {| isLoggedIn := true;
                              token := Some tok';
                              admin := parsed;
                              user := None;
                              userType := Some admin_type |}
             | _, _ => ret tt
             end
         end
     | _, _ => ret tt
     end)%js
    (fun error => console_error "Error loading stored auth data:" error).

(** [state.userType === 'customer'] and [state.userType === 'admin'] *)
Definition is_type (t : UserType) (v : option UserType) : bool :=
  match v, t with
  | Some customer, customer => true
  | Some admin_type, admin_type => true
  | _, _ => false
  end.

Definition isCustomer : js World bool :=
  (let* state := get_store in
   ret (isLoggedIn state && is_type customer (userType state)))%js.

Definition isAdmin : js World bool :=
  (let* state := get_store in
   ret (isLoggedIn state && is_type admin_type (userType state)))%js.

(** *** Sequences of calls and the properties stated about them *)

Inductive call : Type :=
| LoginUser (tok : string) (u : User)
| LoginAdmin (tok : string) (a : Admin)
| Logout
| LoadStoredAuth.

Definition perform (c : call) : js World unit :=
  match c with
  | LoginUser tok u => loginUser tok u
  | LoginAdmin tok a => loginAdmin tok a
  | Logout => logout
  | LoadStoredAuth => loadStoredAuth
  end.

Fixpoint run (calls : list call) (w : World) : World :=
  match calls with
  | [] => w
  | c :: rest => run rest (exec (perform c) w)
  end.



(** An action keeps a property of the in-memory store when the property
    holds after the action whenever it held before, however the action
    completes. *)
Definition keeps (P : AuthStore -> Prop) {A} (m : js World A) : Prop :=
  forall w, P (store w) -> P (store (exec m w)).

(** The entries written by the two logins. *)
Definition user_entries (tok : string) (u : User) : list (string * string) :=
  [ ("auth_token", tok); ("user_data", stringify_user u); ("user_type", "customer") ].

Definition admin_entries (tok : string) (a : Admin) : list (string * string) :=
  [ ("auth_token", tok); ("admin_data", stringify_admin a); ("user_type", "admin") ].

End WithDevice.
End Auth.

(* ===================================================================== *)
(** ** Concrete instances, used to run the stores on examples            *)
(* ===================================================================== *)

Module Samples.

(** Amounts in minor currency units. *)
Definition cents : JsNumber :=
  {| number := Z; num_zero := 0; num_add := Z.add; num_mul := Z.mul;
     num_of_Z := fun z => z |}.

Definition item_of (i : string) (p stock : Z) : @Cart.Product cents :=
  {| Cart.id := i; Cart.name := "item"; Cart.description := "";
     Cart.price := (p : @number cents); Cart.image_base64 := "";
     Cart.inventory := stock |}.

Definition line (i : string) (p stock q : Z) : @Cart.CartItem cents :=
  {| Cart.product := item_of i p stock; Cart.quantity := q |}.

(** A device store that keeps what it is given. *)
Definition reliable : AsyncStorage :=
  {| device := gmap string string;
     multiSet := fun entries =>
       set (fun d => fold_left (fun m kv => <[ fst kv := snd kv ]> m) entries d);
     multiRemove := fun keys =>
       set (fun d => fold_left (fun m k => delete k m) keys d);
     multiGet := fun keys =>
       (let* d := get in ret (List.map (fun k => (k, d !! k)) keys))%js |}.

(** A device store whose writes are rejected (a full or read-only disk). *)
Definition read_only : AsyncStorage :=
  {| device := gmap string string;
     multiSet := fun _ => throw "disk full";
     multiRemove := fun _ => throw "disk full";
     multiGet := fun keys =>
       (let* d := get in ret (List.map (fun k => (k, d !! k)) keys))%js |}.

(** A stand-in codec: a record is written as its id; the text [null]
    reads back as [null] and the empty text is malformed. *)
Definition codec : Auth.Json :=
  {| Auth.stringify_user := Auth.id;
     Auth.stringify_admin := Auth.admin_id;
     Auth.parse_user := fun text =>
       if String.eqb text "" then Throw "SyntaxError"
       else if String.eqb text "null" then Normal None
       else Normal (Some {| Auth.id := text; Auth.name := ""; Auth.phone := "" |});
     Auth.parse_admin := fun text =>
       if String.eqb text "" then Throw "SyntaxError"
       else if String.eqb text "null" then Normal None
       else Normal (Some {| Auth.admin_id := text; Auth.username := "";
                            Auth.full_name := "" |}) |}.

Definition alice : Auth.User :=
  {| Auth.id := "u1"; Auth.name := "Alice"; Auth.phone := "+15550100" |}.

Definition owner : Auth.Admin :=
  {| Auth.admin_id := "a1"; Auth.username := "owner"; Auth.full_name := "Store Owner" |}.

End Samples.

(* ===================================================================== *)
(** ** The screens that drive the cart store                             *)
(* ===================================================================== *)

Module Screens.
Import Cart.

Section WithNumbers.
Context {Num : JsNumber}.

(** The unit count of a list of items, as [getCartItemCount] folds it. *)
Definition units (l : list CartItem) : Z :=
  fold_left (fun sum item => sum + quantity item) l 0.

(** Whether [addToCart] changes the cart: below the ceiling for an id
    already in the cart, in stock for a new one. *)
Definition accepts (s : CartStore) (prod : Product) : bool :=
  match find_item (id prod) s with
  | Some existingItem => negb (quantity existingItem >=? inventory prod)
  | None => negb (inventory prod =? 0)
  end.

(** *** The cart screen

    Every line of [cart.map(...)] carries three controls: a minus button, a
    plus button that is disabled at the ceiling, and a trash button. *)
Inductive control : Type := Minus | Plus | Trash.

(** [disabled={item.quantity >= item.product.inventory}] *)
Definition plus_disabled (item : CartItem) : bool :=
  quantity item >=? inventory (product item).

(** The [onPress] handler of a control of the line at index [row] of the
    cart as rendered.  A disabled button does not call its handler, and a
    row that is not rendered has no button. *)
Definition press (row : nat) (c : control) : js CartStore unit :=
  (let* state := get in
   match nth_error (cart state) row with
   | None => ret tt
   | Some item =>
       match c with
       | Minus => updateCartQuantity (id (product item)) (quantity item - 1)
       | Plus =>
           if plus_disabled item then ret tt
           else updateCartQuantity (id (product item)) (quantity item + 1)
       | Trash => updateCartQuantity (id (product item)) 0
       end
   end)%js.

Fixpoint press_all (presses : list (nat * control)) (s : CartStore) : CartStore :=
  match presses with
  | [] => s
  | (row, c) :: rest => press_all rest (exec (press row c) s)
  end.

End WithNumbers.
End Screens.

(* ===================================================================== *)
(** ** What the session store keeps                                      *)
(* ===================================================================== *)

Module Session.
Import Auth.

(** The four keys of the device storage, in the order [logout] removes
    them and [loadStoredAuth] reads them. *)
Definition keys : list string :=
  [ "auth_token"; "user_data"; "admin_data"; "user_type" ].

(** The login flag, the token and the role tag go together: logged out
    means no token, no role and no identity; logged in means a token and a
    role, and no identity of the other role. *)
Definition consistent (s : AuthStore) : Prop :=
  match userType s with
  | None =>
      isLoggedIn s = false /\ token s = None /\ user s = None /\ admin s = None
  | Some customer =>
      isLoggedIn s = true /\ token s <> None /\ admin s = None
  | Some admin_type =>
      isLoggedIn s = true /\ token s <> None /\ user s = None
  end.

(** A session as [loadStoredAuth] installs it: logged in, under a
    non-empty token, tagged with one role and without an identity of the
    other role. *)
Definition restored (s : AuthStore) : Prop :=
  isLoggedIn s = true /\
  (exists tok, token s = Some tok /\ tok <> "") /\
  ((userType s = Some customer /\ admin s = None) \/
   (userType s = Some admin_type /\ user s = None)).

End Session.

(* ===================================================================== *)
(** ** Further instances for examples                                    *)
(* ===================================================================== *)

Module MoreSamples.

(** A device storage that rejects every call. *)
Definition offline : AsyncStorage :=
  {| device := unit;
     multiSet := fun _ => throw "storage unavailable";
     multiRemove := fun _ => throw "storage unavailable";
     multiGet := fun _ => throw "storage unavailable" |}.

(** A stand-in codec that refuses text not starting with a brace. *)
Definition after_brace (text : string) : option string :=
  if String.prefix "{" text
  then Some (String.substring 1 (String.length text - 1) text)
  else None.

Definition braces : Auth.Json :=
  {| Auth.stringify_user := fun u => String.append "{" (Auth.id u);
     Auth.stringify_admin := fun a => String.append "{" (Auth.admin_id a);
     Auth.parse_user := fun text =>
       match after_brace text with
       | Some rest =>
           Normal (Some {| Auth.id := rest; Auth.name := ""; Auth.phone := "" |})
       | None => Throw "SyntaxError"
       end;
     Auth.parse_admin := fun text =>
       match after_brace text with
       | Some rest =>
           Normal (Some {| Auth.admin_id := rest; Auth.username := "";
                           Auth.full_name := "" |})
       | None => Throw "SyntaxError"
       end |}.

(** A customer known by an id alone. *)
Definition guest : Auth.User :=
  {| Auth.id := "u7"; Auth.name := ""; Auth.phone := "" |}.

(** A device on which the given entries have been written. *)
Definition holding (entries : list (string * string)) : gmap string string :=
  exec (@multiSet Samples.reliable entries) ∅.

(** A two-line cart within its bounds. *)
Definition basket : @Cart.CartStore Samples.cents :=
  {| Cart.cart := [ Samples.line "p1" 999 3 1; Samples.line "p2" 250 5 2 ] |}.

End MoreSamples.

(* ===================================================================== *)
(** ** Facts about the cart store                                        *)
(* ===================================================================== *)

Module CartFacts.
Import Cart.

Section WithNumbers.
Context {Num : JsNumber}.

Implicit Types (s : CartStore) (l : list CartItem) (item : CartItem).

(** *** Lists of line items *)

Lemma has_id_true productId item :
  has_id productId item = true <-> id (product item) = productId.
Proof. unfold has_id. apply String.eqb_eq. Qed.

Lemma has_id_with_quantity productId item q :
  has_id productId (with_quantity item q) = has_id productId item.
Proof. reflexivity. Qed.

Lemma absent_no_match productId l :
  List.find (has_id productId) l = None ->
  forall item, In item l -> has_id productId item = false.
Proof. intros Hnone item Hin. exact (List.find_none _ _ Hnone item Hin). Qed.

Lemma absent_map productId (f : CartItem -> CartItem) l :
  List.find (has_id productId) l = None ->
  List.map (fun item => if has_id productId item then f item else item) l = l.
Proof.
  induction l as [|x l IH]; simpl; [reflexivity|].
  destruct (has_id productId x) eqn:Hx; [discriminate|].
  intros Hnone. now rewrite IH.
Qed.

Lemma absent_filter productId l :
  List.find (has_id productId) l = None ->
  List.filter (fun item => negb (has_id productId item)) l = l.
Proof.
  induction l as [|x l IH]; simpl; [reflexivity|].
  destruct (has_id productId x) eqn:Hx; [discriminate|].
  intros Hnone. simpl. now rewrite IH.
Qed.

Lemma find_set_quantity productId q l item :
  List.find (has_id productId) l = Some item ->
  List.find (has_id productId) (set_quantity productId q l)
    = Some (with_quantity item q).
Proof.
  induction l as [|x l IH]; simpl; [discriminate|].
  destruct (has_id productId x) eqn:Hx.
  - intros [= <-]. rewrite has_id_with_quantity, Hx. reflexivity.
  - rewrite Hx. exact IH.
Qed.

Lemma find_set_quantity_other productId other q l :
  other <> productId ->
  List.find (has_id other) (set_quantity productId q l)
    = List.find (has_id other) l.
Proof.
  intros Hne. induction l as [|x l IH]; simpl; [reflexivity|].
  destruct (has_id productId x) eqn:Hx.
  - rewrite has_id_with_quantity.
    assert (has_id other x = false) as ->.
    { apply has_id_true in Hx. unfold has_id. apply String.eqb_neq. congruence. }
    exact IH.
  - destruct (has_id other x); [reflexivity | exact IH].
Qed.

(** [getCartItemCount]'s fold, from any starting sum. *)
Lemma count_from a l :
  fold_left (fun sum item => sum + quantity item) l a
  = a + fold_left (fun sum item => sum + quantity item) l 0.
Proof.
  revert a. induction l as [|x l IH]; intros a; cbn [fold_left]; [lia|].
  rewrite (IH (a + quantity x)), (IH (0 + quantity x)). lia.
Qed.

(** *** Every action completes normally *)

Lemma addToCart_normal prod s : eval (addToCart prod) s = Normal tt.
Proof. reflexivity. Qed.

Lemma removeFromCart_normal productId s : eval (removeFromCart productId) s = Normal tt.
Proof. reflexivity. Qed.

Lemma updateCartQuantity_normal productId q s :
  eval (updateCartQuantity productId q) s = Normal tt.
Proof. unfold updateCartQuantity. destruct (q =? 0); reflexivity. Qed.

(** *** What [updateCartQuantity] does when the quantity is not zero *)

Lemma updateCartQuantity_nonzero productId q s :
  q <> 0 ->
  exec (updateCartQuantity productId q) s
  = if exceeds q (option_map product (find_item productId s)) then s
    else {| cart := set_quantity productId q (cart s) |}.
Proof.
  intros Hq. unfold updateCartQuantity.
  destruct (Z.eqb_spec q 0) as [->|_]; [contradiction|].
  reflexivity.
Qed.

Lemma updateCartQuantity_zero productId s :
  exec (updateCartQuantity productId 0) s
  = {| cart := List.filter (fun item => negb (has_id productId item)) (cart s) |}.
Proof. reflexivity. Qed.

(** C4. For every cart and every product id, [updateCartQuantity(id, 0)]
    is [removeFromCart(id)]: the two calls complete the same way and leave
    the same cart, whether or not an item with that id is present. *)
Theorem updateCartQuantity_zero_is_remove :
  forall (productId : string) s,
    updateCartQuantity productId 0 s = removeFromCart productId s.
Proof. intros productId s. reflexivity. Qed.

(** C7. When no item carries the id of the product and the product's
    inventory is zero, [addToCart] leaves the cart exactly as it was and
    returns normally ([undefined], nothing thrown): a silent no-op. *)
Theorem addToCart_out_of_stock :
  forall (prod : Product) s,
    find_item (id prod) s = None ->
    inventory prod = 0 ->
    addToCart prod s = (Normal tt, s).
Proof.
  intros prod s Habsent Hzero.
  unfold addToCart, set, find_item in *.
  rewrite Habsent, Hzero. reflexivity.
Qed.

(** C6. When no item carries the id of the product and the product's
    inventory is positive, [addToCart] appends one item with quantity 1
    after the existing items, which are left as they were, and
    [getCartItemCount] grows by one. *)
Theorem addToCart_new_item :
  forall (prod : Product) s,
    find_item (id prod) s = None ->
    inventory prod > 0 ->
    cart (exec (addToCart prod) s)
      = cart s ++ [ {| product := prod; quantity := 1 |} ] /\
    exists n,
      eval getCartItemCount s = Normal n /\
      eval getCartItemCount (exec (addToCart prod) s) = Normal (n + 1).
Proof.
  intros prod s Habsent Hpos.
  assert (Hcart : cart (exec (addToCart prod) s)
                  = cart s ++ [ {| product := prod; quantity := 1 |} ]).
  { unfold addToCart, set, exec, find_item in *. simpl. rewrite Habsent.
    destruct (Z.eqb_spec (inventory prod) 0) as [E|_]; [lia | reflexivity]. }
  split; [exact Hcart|].
  eexists. split; [reflexivity|].
  unfold getCartItemCount, eval, bind, get, ret. simpl.
  rewrite Hcart, fold_left_app. reflexivity.
Qed.

(** C3, as amended.  [updateCartQuantity(id, q)] on any cart: with no item
    under the id the cart is unchanged; with an item under the id, a
    non-zero [q] that exceeds the inventory of the item's snapshot leaves
    the cart unchanged, so the prior quantity stays, and a non-zero [q]
    that does not exceed it becomes the quantity of the item, exactly, and
    nothing else changes. *)
Theorem updateCartQuantity_semantics :
  forall (productId : string) (q : Z) s,
    (find_item productId s = None ->
     exec (updateCartQuantity productId q) s = s) /\
    (forall item,
       find_item productId s = Some item ->
       q <> 0 ->
       q > inventory (product item) ->
       exec (updateCartQuantity productId q) s = s) /\
    (forall item,
       find_item productId s = Some item ->
       q <= inventory (product item) ->
       q <> 0 ->
       cart (exec (updateCartQuantity productId q) s)
         = set_quantity productId q (cart s) /\
       find_item productId (exec (updateCartQuantity productId q) s)
         = Some (with_quantity item q) /\
       forall other, other <> productId ->
         find_item other (exec (updateCartQuantity productId q) s)
           = find_item other s).
Proof.
  intros productId q [l]. unfold find_item. simpl.
  split; [|split].
  - intros Habsent. destruct (Z.eq_dec q 0) as [->|Hq].
    + rewrite updateCartQuantity_zero. simpl. now rewrite absent_filter.
    + rewrite updateCartQuantity_nonzero by exact Hq.
      unfold find_item, set_quantity. simpl. rewrite Habsent. simpl.
      now rewrite absent_map.
  - intros item Hfound Hnz Hq.
    rewrite updateCartQuantity_nonzero by exact Hnz.
    unfold find_item. simpl. rewrite Hfound. simpl.
    destruct (Z.gtb_spec q (inventory (product item))); [reflexivity | lia].
  - intros item Hfound Hle Hq.
    rewrite updateCartQuantity_nonzero by exact Hq.
    unfold find_item. simpl. rewrite Hfound. simpl.
    destruct (Z.gtb_spec q (inventory (product item))); [lia|]. simpl.
    split; [reflexivity|]. split.
    + now apply find_set_quantity.
    + intros other Hother. now apply find_set_quantity_other.
Qed.

(** *** Unit counts after a quantity is overwritten *)

Lemma count_set_quantity productId q l :
  fold_left (fun sum item => sum + quantity item) (set_quantity productId q l) 0
  = fold_left (fun sum item => sum + quantity item)
      (List.filter (fun item => negb (has_id productId item)) l) 0
    + q * occurrences productId l.
Proof.
  unfold occurrences.
  induction l as [|x l IH]; [simpl; lia|].
  cbn [set_quantity List.map List.filter fold_left].
  fold (set_quantity productId q l).
  destruct (has_id productId x) eqn:Hx; cbn [negb fold_left length quantity with_quantity].
  - rewrite count_from, IH, Nat2Z.inj_succ. lia.
  - rewrite count_from, IH.
    rewrite (count_from (0 + quantity x)). lia.
Qed.

Lemma present_occurs productId l item :
  List.find (has_id productId) l = Some item -> 1 <= occurrences productId l.
Proof.
  unfold occurrences. induction l as [|x l IH]; simpl; [discriminate|].
  destruct (has_id productId x); simpl; [lia | exact IH].
Qed.

(** C9, as amended.  On a cart holding an item under the id,
    [updateCartQuantity(id, q)] with a negative [q] that does not exceed
    the inventory of the item's snapshot is accepted: the item stays in the
    cart with quantity [q], no line is removed, and [getCartItemCount] is
    the count of the other items plus [q] for every line under the id. *)
Theorem updateCartQuantity_negative :
  forall (productId : string) (q : Z) s item,
    find_item productId s = Some item ->
    q <= inventory (product item) ->
    q < 0 ->
    cart (exec (updateCartQuantity productId q) s)
      = set_quantity productId q (cart s) /\
    find_item productId (exec (updateCartQuantity productId q) s)
      = Some (with_quantity item q) /\
    length (cart (exec (updateCartQuantity productId q) s)) = length (cart s) /\
    1 <= occurrences productId (cart s) /\
    exists others,
      eval getCartItemCount (exec (removeFromCart productId) s) = Normal others /\
      eval getCartItemCount (exec (updateCartQuantity productId q) s)
        = Normal (others + q * occurrences productId (cart s)).
Proof.
  intros productId q s item Hfound Hfits Hneg.
  assert (Hcart : cart (exec (updateCartQuantity productId q) s)
                  = set_quantity productId q (cart s)).
  { rewrite updateCartQuantity_nonzero by lia.
    rewrite Hfound. simpl.
    destruct (Z.gtb_spec q (inventory (product item))); [lia | reflexivity]. }
  split; [exact Hcart|]. split.
  { unfold find_item in *. rewrite Hcart. now apply find_set_quantity. }
  split.
  { rewrite Hcart. unfold set_quantity. now rewrite length_map. }
  split.
  { eapply present_occurs. exact Hfound. }
  eexists. split; [reflexivity|].
  unfold getCartItemCount, eval, bind, get, ret. simpl.
  rewrite Hcart, count_set_quantity. reflexivity.
Qed.

(** *** Looking an id up after each kind of change *)

Lemma product_bump productId g item : product (bump productId g item) = product item.
Proof. unfold bump. now destruct (has_id productId item). Qed.

Lemma find_bump other productId g l :
  List.find (has_id other) (List.map (bump productId g) l)
  = option_map (bump productId g) (List.find (has_id other) l).
Proof.
  induction l as [|x l IH]; simpl; [reflexivity|].
  assert (has_id other (bump productId g x) = has_id other x) as ->.
  { unfold has_id. now rewrite product_bump. }
  destruct (has_id other x); [reflexivity | exact IH].
Qed.

Lemma find_snoc (f : CartItem -> bool) l x :
  List.find f (l ++ [x])
  = match List.find f l with
    | Some y => Some y
    | None => if f x then Some x else None
    end.
Proof.
  induction l as [|y l IH]; simpl; [reflexivity|].
  destruct (f y); [reflexivity | exact IH].
Qed.

Lemma find_removed other productId l :
  List.find (has_id other)
    (List.filter (fun item => negb (has_id productId item)) l)
  = if String.eqb other productId then None else List.find (has_id other) l.
Proof.
  induction l as [|x l IH]; simpl.
  - now destruct (String.eqb other productId).
  - destruct (has_id productId x) eqn:Hx; simpl.
    + rewrite IH. destruct (String.eqb_spec other productId) as [->|Hne];
        [reflexivity|].
      assert (has_id other x = false) as ->; [|reflexivity].
      apply has_id_true in Hx. unfold has_id. apply String.eqb_neq. congruence.
    + destruct (has_id other x) eqn:Ho.
      * destruct (String.eqb_spec other productId) as [->|Hne];
          [congruence | reflexivity].
      * exact IH.
Qed.

Lemma products_bump productId g l :
  List.map product (List.map (bump productId g) l) = List.map product l.
Proof.
  induction l as [|x l IH]; simpl; [reflexivity|].
  now rewrite product_bump, IH.
Qed.

(** [addToCart] when the id is already in the cart. *)
Lemma addToCart_present prod s item :
  find_item (id prod) s = Some item ->
  exec (addToCart prod) s
  = if quantity item >=? inventory prod then s
    else {| cart := List.map (bump (id prod) (fun it => quantity it + 1)) (cart s) |}.
Proof.
  unfold find_item, addToCart, set, exec. simpl. intros ->. reflexivity.
Qed.

Lemma addToCart_absent prod s :
  find_item (id prod) s = None ->
  exec (addToCart prod) s
  = if inventory prod =? 0 then s
    else {| cart := cart s ++ [ {| product := prod; quantity := 1 |} ] |}.
Proof.
  unfold find_item, addToCart, set, exec. simpl. intros ->. reflexivity.
Qed.

(** The snapshot found under an id after a call is the one found before
    it, unless the call is the [addToCart] that created the item. *)
Lemma perform_keeps_snapshot (c : call) s productId item' :
  find_item productId (exec (perform c) s) = Some item' ->
  (exists item, find_item productId s = Some item /\ product item' = product item) \/
  (find_item productId s = None /\
   c = AddToCart (product item') /\ quantity item' = 1).
Proof.
  destruct c as [prod | removed | updated q | ]; cbn [perform].
  - destruct (find_item (id prod) s) as [found|] eqn:Hfound.
    + rewrite (addToCart_present _ _ _ Hfound).
      destruct (quantity found >=? inventory prod).
      * intros H. left. now exists item'.
      * unfold find_item. simpl. rewrite find_bump.
        destruct (List.find (has_id productId) (cart s)) as [y|] eqn:Hy;
          [|discriminate].
        intros [= <-]. left. exists y. split; [reflexivity | apply product_bump].
    + rewrite (addToCart_absent _ _ Hfound).
      destruct (inventory prod =? 0).
      * intros H. left. now exists item'.
      * unfold find_item. simpl. rewrite find_snoc.
        destruct (List.find (has_id productId) (cart s)) as [y|] eqn:Hy.
        -- intros [= <-]. left. now exists y.
        -- destruct (has_id productId _); [|discriminate].
           intros [= <-]. right. repeat split.
  - unfold find_item, removeFromCart, set, exec. simpl. rewrite find_removed.
    destruct (String.eqb productId removed); [discriminate|].
    intros H. left. now exists item'.
  - destruct (Z.eq_dec q 0) as [->|Hq].
    + rewrite updateCartQuantity_zero. unfold find_item. simpl.
      rewrite find_removed.
      destruct (String.eqb productId updated); [discriminate|].
      intros H. left. now exists item'.
    + rewrite updateCartQuantity_nonzero by exact Hq.
      destruct (exceeds q _).
      * intros H. left. now exists item'.
      * unfold find_item, set_quantity. simpl.
        change (fun item => if has_id updated item then with_quantity item q else item)
          with (bump updated (fun _ : CartItem => q)).
        rewrite find_bump.
        destruct (List.find (has_id productId) (cart s)) as [y|] eqn:Hy;
          [|discriminate].
        intros [= <-]. left. exists y. split; [reflexivity | apply product_bump].
  - discriminate.
Qed.

(** C10. A stored product snapshot is never replaced.  After any call,
    the snapshot found under an id is the one that was there before,
    unless that call is the [addToCart] which created the item.  In
    particular [addToCart] with a record whose id is already in the cart
    compares the stored quantity with the inventory of the record it is
    given, changes quantities only, and uses nothing else of that record:
    two records with the same id and inventory have the same effect, so
    [getCartTotal] goes on multiplying the price stored first. *)
Theorem addToCart_keeps_snapshot :
  forall (prod : Product) s item,
    find_item (id prod) s = Some item ->
    (forall (c : call) productId item',
       find_item productId (exec (perform c) s) = Some item' ->
       (exists before, find_item productId s = Some before /\
                       product item' = product before) \/
       (find_item productId s = None /\
        c = AddToCart (product item') /\ quantity item' = 1)) /\
    exec (addToCart prod) s
      = (if quantity item >=? inventory prod then s
         else {| cart := List.map (bump (id prod) (fun it => quantity it + 1))
                           (cart s) |}) /\
    List.map product (cart (exec (addToCart prod) s)) = List.map product (cart s) /\
    (forall prod' : Product,
       id prod' = id prod -> inventory prod' = inventory prod ->
       exec (addToCart prod') s = exec (addToCart prod) s /\
       eval getCartTotal (exec (addToCart prod') s)
         = eval getCartTotal (exec (addToCart prod) s)).
Proof.
  intros prod s item Hfound. split; [|split; [|split]].
  - intros c productId item'. apply perform_keeps_snapshot.
  - now apply addToCart_present.
  - rewrite (addToCart_present _ _ _ Hfound).
    destruct (quantity item >=? inventory prod); [reflexivity|].
    simpl. apply products_bump.
  - intros prod' Hid Hinv.
    assert (exec (addToCart prod') s = exec (addToCart prod) s) as ->;
      [|split; reflexivity].
    rewrite (addToCart_present _ _ _ Hfound).
    rewrite <- Hid in Hfound. rewrite (addToCart_present _ _ _ Hfound).
    now rewrite Hid, Hinv.
Qed.

(** *** The quantity bounds along a sequence of calls *)

Lemma within_bounds_spec item :
  within_bounds item = true <-> 1 <= quantity item <= inventory (product item).
Proof. unfold within_bounds. rewrite andb_true_iff, !Z.leb_le. tauto. Qed.

Lemma bounds_hold_spec s :
  bounds_hold s = true <->
  forall item, In item (cart s) -> 1 <= quantity item <= inventory (product item).
Proof.
  unfold bounds_hold. rewrite forallb_forall.
  split; intros H item Hin; apply within_bounds_spec, H, Hin.
Qed.

Lemma ids_bump productId g l : ids (List.map (bump productId g) l) = ids l.
Proof.
  unfold ids. induction l as [|x l IH]; simpl; [reflexivity|].
  now rewrite product_bump, IH.
Qed.

Lemma absent_not_in_ids productId l :
  List.find (has_id productId) l = None -> ~ In productId (ids l).
Proof.
  intros Habsent Hin. unfold ids in Hin.
  apply in_map_iff in Hin as (item & Hid & Hin).
  pose proof (absent_no_match _ _ Habsent _ Hin) as Hno.
  apply has_id_true in Hid. congruence.
Qed.

Lemma ids_snoc_unique l item :
  List.NoDup (ids l) ->
  List.find (has_id (id (product item))) l = None ->
  List.NoDup (ids (l ++ [item])).
Proof.
  intros Hnd Habsent. apply absent_not_in_ids in Habsent.
  induction l as [|x l IH]; simpl in *.
  - constructor; [intros [] | constructor].
  - inversion Hnd as [|? ? Hx Hl]; subst. constructor.
    + unfold ids in *. rewrite map_app, in_app_iff. simpl. intuition.
    + apply IH; [exact Hl | tauto].
Qed.

Lemma ids_filter_unique (f : CartItem -> bool) l :
  List.NoDup (ids l) -> List.NoDup (ids (List.filter f l)).
Proof.
  induction l as [|x l IH]; simpl; [trivial|].
  intros Hnd. inversion Hnd as [|? ? Hx Hl]; subst.
  destruct (f x); [|now apply IH]. simpl. constructor; [|now apply IH].
  intros Hin. apply Hx. unfold ids in *.
  apply in_map_iff in Hin as (y & Hy & Hin).
  apply in_map_iff. exists y. split; [exact Hy|].
  now apply filter_In in Hin.
Qed.

(** With unique ids, the item found under an id is the only one. *)
Lemma found_is_only productId l found item :
  List.NoDup (ids l) ->
  List.find (has_id productId) l = Some found ->
  In item l -> has_id productId item = true ->
  item = found.
Proof.
  induction l as [|x l IH]; simpl; [discriminate|].
  intros Hnd Hfind Hin Hid. inversion Hnd as [|? ? Hx Hl]; subst.
  destruct (has_id productId x) eqn:Hhx.
  - injection Hfind as <-. destruct Hin as [<-|Hin]; [reflexivity|].
    exfalso. apply Hx. unfold ids. apply in_map_iff. exists item.
    apply has_id_true in Hid, Hhx. split; [congruence | exact Hin].
  - destruct Hin as [<-|Hin]; [congruence|]. now apply IH.
Qed.

Lemma present_when_matched productId l item :
  In item l -> has_id productId item = true ->
  exists found, List.find (has_id productId) l = Some found.
Proof.
  intros Hin Hid. destruct (List.find (has_id productId) l) eqn:Hfind;
    [eauto|].
  pose proof (absent_no_match _ _ Hfind _ Hin). congruence.
Qed.

Lemma removeFromCart_well_formed productId s :
  well_formed s -> well_formed (exec (removeFromCart productId) s).
Proof.
  intros [Hnd Hb]. split.
  - simpl. now apply ids_filter_unique.
  - rewrite bounds_hold_spec in *. simpl. intros item Hin.
    apply filter_In in Hin. now apply Hb.
Qed.

Lemma bump_well_formed productId g s :
  well_formed s ->
  (forall found, find_item productId s = Some found ->
     1 <= g found <= inventory (product found)) ->
  well_formed {| cart := List.map (bump productId g) (cart s) |}.
Proof.
  intros [Hnd Hb] Hg. split.
  - simpl. now rewrite ids_bump.
  - rewrite bounds_hold_spec in *. simpl. intros item Hin.
    apply in_map_iff in Hin as (y & <- & Hin).
    unfold bump. destruct (has_id productId y) eqn:Hy; [|now apply Hb].
    destruct (present_when_matched _ _ _ Hin Hy) as [found Hfound].
    rewrite (found_is_only _ _ _ _ Hnd Hfound Hin Hy). simpl.
    now apply Hg.
Qed.

Lemma perform_well_formed (c : call) s :
  well_formed s -> admissible s c = true -> well_formed (exec (perform c) s).
Proof.
  intros Hwf Hadm. destruct c as [prod | removed | updated q | ];
    cbn [perform admissible] in *.
  - apply andb_true_iff in Hadm as [Hvalid Hle].
    unfold valid_product in Hvalid. apply Z.leb_le in Hvalid.
    destruct (find_item (id prod) s) as [found|] eqn:Hfound.
    + apply Z.leb_le in Hle. rewrite (addToCart_present _ _ _ Hfound).
      destruct (Z.geb_spec (quantity found) (inventory prod)) as [|Hlt];
        [exact Hwf|].
      apply bump_well_formed; [exact Hwf|].
      intros found' Hfound'. rewrite Hfound in Hfound'. injection Hfound' as <-.
      destruct Hwf as [_ Hb]. rewrite bounds_hold_spec in Hb.
      assert (In found (cart s)) as Hin
        by (eapply List.find_some; exact Hfound).
      specialize (Hb _ Hin). lia.
    + rewrite (addToCart_absent _ _ Hfound).
      destruct (Z.eqb_spec (inventory prod) 0) as [|Hnz]; [exact Hwf|].
      destruct Hwf as [Hnd Hb]. split.
      * simpl. now apply ids_snoc_unique.
      * rewrite bounds_hold_spec in *. simpl. intros item Hin.
        apply in_app_iff in Hin as [Hin|[<-|[]]]; [now apply Hb|].
        simpl. lia.
  - now apply removeFromCart_well_formed.
  - apply Z.leb_le in Hadm. destruct (Z.eq_dec q 0) as [->|Hq].
    + rewrite updateCartQuantity_zero. now apply removeFromCart_well_formed.
    + rewrite updateCartQuantity_nonzero by exact Hq.
      destruct (exceeds q _) eqn:Hex; [exact Hwf|].
      apply (bump_well_formed updated (fun _ => q)); [exact Hwf|].
      intros found Hfound. rewrite Hfound in Hex. simpl in Hex.
      destruct (Z.gtb_spec q (inventory (product found))); [discriminate|].
      lia.
  - split; [constructor | reflexivity].
Qed.

Lemma run_well_formed (calls : list call) s :
  well_formed s -> admissible_run calls s = true -> well_formed (run calls s).
Proof.
  revert s. induction calls as [|c rest IH]; intros s Hwf Hadm; simpl in *.
  - exact Hwf.
  - apply andb_true_iff in Hadm as [Hc Hrest].
    apply IH; [now apply perform_well_formed | exact Hrest].
Qed.

(** C1, as amended.  From the empty cart, after any sequence of
    [addToCart], [removeFromCart], [updateCartQuantity] and [clearCart]
    calls in which every new quantity is non-negative and every product
    handed to [addToCart] is a valid record (non-negative inventory) whose
    inventory is not above that of the snapshot already stored under its
    id, every item has [1 <= quantity <= inventory] of its stored
    snapshot. *)
Theorem quantity_bounds_admissible :
  forall calls : list call,
    admissible_run calls initial = true ->
    bounds_hold (run calls initial) = true.
Proof.
  intros calls Hadm.
  apply (run_well_formed calls initial); [|exact Hadm].
  split; [constructor | reflexivity].
Qed.

End WithNumbers.
End CartFacts.

(* ===================================================================== *)
(** ** Facts about the session store                                     *)
(* ===================================================================== *)

Module AuthFacts.
Import Auth.

Section WithDevice.
Context {Storage : AsyncStorage} {J : Json}.

Implicit Types (w : World) (s : AuthStore).

(** *** A call whose storage request is rejected *)

Lemma await_rejected {A} (request : js device A) (e : string) w :
  eval request (disk w) = Throw e ->
  exists d, await request w
            = (Throw e, {| store := store w; disk := d; console := console w |}).
Proof.
  unfold eval, await. destruct (request (disk w)) as [r d]. simpl.
  intros ->. now exists d.
Qed.

Lemma await_resolved {A} (request : js device A) (a : A) w :
  eval request (disk w) = Normal a ->
  await request w
  = (Normal a, {| store := store w; disk := exec request (disk w);
                  console := console w |}).
Proof.
  unfold eval, exec, await. destruct (request (disk w)) as [r d]. simpl.
  now intros ->.
Qed.

(** C2. If the storage write made by [loginUser] is rejected, the
    in-memory session is exactly what it was before the call, and the
    call itself still returns normally (the error is only logged).  The
    same holds for [loginAdmin]. *)
Theorem login_write_failure_keeps_session :
  forall (tok : string) (u : User) (a : Admin) (e : string) w,
    (eval (multiSet (user_entries tok u)) (disk w) = Throw e ->
     store (exec (loginUser tok u) w) = store w /\
     eval (loginUser tok u) w = Normal tt) /\
    (eval (multiSet (admin_entries tok a)) (disk w) = Throw e ->
     store (exec (loginAdmin tok a) w) = store w /\
     eval (loginAdmin tok a) w = Normal tt).
Proof.
  intros tok u a e w. split; intros Hrejected;
    apply await_rejected in Hrejected as [d Hd];
    unfold user_entries, admin_entries in Hd;
    unfold loginUser, loginAdmin, try_catch, bind, exec, eval;
    rewrite Hd; split; reflexivity.
Qed.

(** C8. With both storage writes accepted: after [loginUser],
    [isCustomer()] is true and [isAdmin()] is false; after a following
    [loginAdmin], [isCustomer()] is false, [isAdmin()] is true and the
    store's [user] record is [null]. *)
Theorem login_predicates :
  forall (tok tok' : string) (u : User) (a : Admin) w,
    eval (multiSet (user_entries tok u)) (disk w) = Normal tt ->
    eval (multiSet (admin_entries tok' a)) (disk (exec (loginUser tok u) w))
      = Normal tt ->
    eval isCustomer (exec (loginUser tok u) w) = Normal true /\
    eval isAdmin (exec (loginUser tok u) w) = Normal false /\
    eval isCustomer (exec (loginAdmin tok' a) (exec (loginUser tok u) w))
      = Normal false /\
    eval isAdmin (exec (loginAdmin tok' a) (exec (loginUser tok u) w))
      = Normal true /\
    user (store (exec (loginAdmin tok' a) (exec (loginUser tok u) w))) = None.
Proof.
  intros tok tok' u a w Hfirst Hsecond.
  apply await_resolved in Hfirst. unfold user_entries in Hfirst.
  assert (Hw1 : exec (loginUser tok u) w
                = {| store := {| isLoggedIn := true; user := Some u; admin := None;
                                 token := Some tok; userType := Some customer |};
                     disk := exec (multiSet (user_entries tok u)) (disk w);
                     console := console w |}).
  { unfold loginUser, try_catch, bind, exec at 1. rewrite Hfirst. reflexivity. }
  rewrite Hw1 in *.
  apply await_resolved in Hsecond. unfold admin_entries in Hsecond.
  assert (Hw2 : store (exec (loginAdmin tok' a)
                  {| store := {| isLoggedIn := true; user := Some u; admin := None;
                                 token := Some tok; userType := Some customer |};
                     disk := exec (multiSet (user_entries tok u)) (disk w);
                     console := console w |})
                = {| isLoggedIn := true; user := None; admin := Some a;
                     token := Some tok'; userType := Some admin_type |}).
  { unfold loginAdmin, try_catch, bind, exec at 1. rewrite Hsecond. reflexivity. }
  unfold isCustomer, isAdmin, get_store, bind, get, ret, eval. simpl.
  rewrite Hw2. repeat split.
Qed.

(** *** The role tag along a sequence of calls *)


(** How [keeps] goes through the control flow of an action. *)
Section Keeps.
Variable P : AuthStore -> Prop.

Lemma keeps_ret {A} (a : A) : keeps P (ret a).
Proof. intros w HP. exact HP. Qed.

Lemma keeps_lift {A} (c : completion A) : keeps P (lift c).
Proof. intros w HP. exact HP. Qed.

Lemma keeps_await {A} (request : js device A) : keeps P (await request).
Proof.
  intros w HP. unfold exec, await.
  destruct (request (disk w)) as [r d]. exact HP.
Qed.

Lemma keeps_console_error (message error : string) :
  keeps P (console_error message error).
Proof. intros w HP. exact HP. Qed.

Lemma keeps_set_store s : P s -> keeps P (set_store s).
Proof. intros Hs w _. exact Hs. Qed.

Lemma keeps_bind {A B} (m : js World A) (k : A -> js World B) :
  keeps P m -> (forall a, keeps P (k a)) -> keeps P (bind m k).
Proof.
  intros Hm Hk w HP. specialize (Hm w HP). unfold exec, bind in *.
  destruct (m w) as [[a|e] w']; simpl in *; [|exact Hm].
  apply (Hk a w' Hm).
Qed.

Lemma keeps_try_catch {A} (body : js World A) (handler : string -> js World A) :
  keeps P body -> (forall e, keeps P (handler e)) -> keeps P (try_catch body handler).
Proof.
  intros Hbody Hhandler w HP. specialize (Hbody w HP).
  unfold exec, try_catch in *.
  destruct (body w) as [[a|e] w']; simpl in *; [exact Hbody|].
  apply (Hhandler e w' Hbody).
Qed.
End Keeps.






End WithDevice.
End AuthFacts.

(* ===================================================================== *)
(** ** The stores run on examples                                        *)
(* ===================================================================== *)

Module Runs.
Import Samples.

(** The cart of the specification's example: the same product added
    twice gives two units and twice the price. *)
Example two_units :
  let s := Cart.run [ Cart.AddToCart (item_of "p1" 999 3);
                      Cart.AddToCart (item_of "p1" 999 3) ] Cart.initial in
  eval Cart.getCartItemCount s = Normal 2 /\
  eval Cart.getCartTotal s = Normal (1998 : @number cents).
Proof. split; reflexivity. Qed.

(** The inventory ceiling stops a third unit of a product stocked twice. *)
Example ceiling_reached :
  Cart.cart (Cart.run [ Cart.AddToCart (item_of "p1" 999 2);
                        Cart.AddToCart (item_of "p1" 999 2);
                        Cart.AddToCart (item_of "p1" 999 2) ] Cart.initial)
  = [ line "p1" 999 2 2 ].
Proof. reflexivity. Qed.

(** C1, refuted as stated.  A negative new quantity is stored as it is,
    below 1; and a record with a larger inventory under an id already in
    the cart lets the quantity pass the inventory of the stored snapshot. *)
Lemma quantity_bounds_counterexample :
  Cart.bounds_hold
    (Cart.run [ Cart.AddToCart (item_of "p1" 999 3);
                Cart.UpdateCartQuantity "p1" (-1) ] Cart.initial) = false /\
  Cart.bounds_hold
    (Cart.run [ Cart.AddToCart (item_of "p1" 999 1);
                Cart.AddToCart (item_of "p1" 999 5) ] Cart.initial) = false.
Proof. split; reflexivity. Qed.

Lemma quantity_bounds_admissible_witness :
  let calls := [ Cart.AddToCart (item_of "p1" 999 3);
                 Cart.AddToCart (item_of "p1" 999 3);
                 Cart.AddToCart (item_of "p2" 250 0);
                 Cart.AddToCart (item_of "p3" 100 7);
                 Cart.UpdateCartQuantity "p3" 7;
                 Cart.UpdateCartQuantity "p3" 8;
                 Cart.AddToCart (item_of "p1" 899 2);
                 Cart.UpdateCartQuantity "p1" 0;
                 Cart.RemoveFromCart "p9" ] in
  Cart.admissible_run calls Cart.initial = true /\
  Cart.bounds_hold (Cart.run calls Cart.initial) = true.
Proof.
  intros calls. split; [reflexivity|].
  apply (CartFacts.quantity_bounds_admissible calls). reflexivity.
Defined.

(** C3, refuted as stated.  [addToCart] takes a record whose inventory is
    -1 (only an inventory of exactly 0 is refused); on that cart the new
    quantity 0 exceeds the snapshot inventory, yet the line is removed
    instead of the cart being left unchanged. *)
Lemma updateCartQuantity_semantics_counterexample :
  let s := Cart.run [ Cart.AddToCart (item_of "p1" 999 (-1)) ] Cart.initial in
  Cart.find_item "p1" s = Some (line "p1" 999 (-1) 1) /\
  0 > Cart.inventory (Cart.product (line "p1" 999 (-1) 1)) /\
  Cart.cart (exec (Cart.updateCartQuantity "p1" 0) s) = [] /\
  exec (Cart.updateCartQuantity "p1" 0) s <> s.
Proof.
  intros s. split; [reflexivity|]. split; [simpl; lia|].
  split; [reflexivity|]. discriminate.
Qed.

(** C9, refuted as stated.  On the cart left by [addToCart] of a record
    whose inventory is -5, the negative quantity -1 exceeds the snapshot
    inventory and is refused: the item keeps its quantity 1. *)
Lemma updateCartQuantity_negative_counterexample :
  let s := Cart.run [ Cart.AddToCart (item_of "p1" 999 (-5)) ] Cart.initial in
  Cart.find_item "p1" s = Some (line "p1" 999 (-5) 1) /\
  -1 < 0 /\
  exec (Cart.updateCartQuantity "p1" (-1)) s = s /\
  Cart.find_item "p1" (exec (Cart.updateCartQuantity "p1" (-1)) s)
    = Some (line "p1" 999 (-5) 1).
Proof.
  intros s. split; [reflexivity|]. split; [lia|]. split; reflexivity.
Qed.

Lemma updateCartQuantity_semantics_witness :
  let s := {| Cart.cart := [ line "p1" 999 3 1; line "p2" 250 5 2 ] |} in
  (Cart.find_item "p9" s = None /\
   exec (Cart.updateCartQuantity "p9" 2) s = s) /\
  (Cart.find_item "p1" s = Some (line "p1" 999 3 1) /\
   4 <> 0 /\ 4 > 3 /\
   exec (Cart.updateCartQuantity "p1" 4) s = s) /\
  (Cart.find_item "p2" s = Some (line "p2" 250 5 2) /\
   5 <= 5 /\ 5 <> 0 /\
   Cart.cart (exec (Cart.updateCartQuantity "p2" 5) s)
     = [ line "p1" 999 3 1; line "p2" 250 5 5 ]).
Proof.
  intros s.
  pose proof (proj1 (CartFacts.updateCartQuantity_semantics "p9" 2 s) eq_refl)
    as Habsent.
  pose proof (proj1 (proj2 (CartFacts.updateCartQuantity_semantics "p1" 4 s))
                (line "p1" 999 3 1) eq_refl ltac:(lia) ltac:(simpl; lia))
    as Hrejected.
  pose proof (proj2 (proj2 (CartFacts.updateCartQuantity_semantics "p2" 5 s))
                (line "p2" 250 5 2) eq_refl ltac:(simpl; lia) ltac:(lia))
    as (Hset & _).
  split; [split; [reflexivity | exact Habsent]|].
  split; [split; [reflexivity | split; [lia | split; [lia | exact Hrejected]]]|].
  split; [reflexivity | split; [lia | split; [lia | exact Hset]]].
Defined.

Lemma addToCart_new_item_witness :
  let s := {| Cart.cart := [ line "p2" 250 5 2 ] |} in
  let prod := item_of "p1" 999 3 in
  Cart.find_item "p1" s = None /\
  3 > 0 /\
  Cart.cart (exec (Cart.addToCart prod) s) = [ line "p2" 250 5 2; line "p1" 999 3 1 ] /\
  exists n,
    eval Cart.getCartItemCount s = Normal n /\
    eval Cart.getCartItemCount (exec (Cart.addToCart prod) s) = Normal (n + 1).
Proof.
  intros s prod. split; [reflexivity|]. split; [lia|].
  apply (CartFacts.addToCart_new_item prod s); [reflexivity | simpl; lia].
Defined.

Lemma addToCart_out_of_stock_witness :
  let s := {| Cart.cart := [ line "p2" 250 5 2 ] |} in
  let prod := item_of "p1" 999 0 in
  Cart.find_item "p1" s = None /\
  Cart.inventory prod = 0 /\
  Cart.addToCart prod s = (Normal tt, s).
Proof.
  intros s prod. split; [reflexivity|]. split; [reflexivity|].
  apply (CartFacts.addToCart_out_of_stock prod s); reflexivity.
Defined.

Lemma updateCartQuantity_negative_witness :
  let s := {| Cart.cart := [ line "p1" 999 3 1; line "p2" 250 5 2 ] |} in
  Cart.find_item "p1" s = Some (line "p1" 999 3 1) /\
  -2 <= 3 /\ -2 < 0 /\
  Cart.cart (exec (Cart.updateCartQuantity "p1" (-2)) s)
    = [ line "p1" 999 3 (-2); line "p2" 250 5 2 ] /\
  eval Cart.getCartItemCount (exec (Cart.updateCartQuantity "p1" (-2)) s) = Normal 0.
Proof.
  intros s.
  pose proof (CartFacts.updateCartQuantity_negative "p1" (-2) s (line "p1" 999 3 1)
                eq_refl ltac:(simpl; lia) ltac:(lia))
    as (Hcart & _ & _ & _ & others & Hothers & Hcount).
  split; [reflexivity|]. split; [lia|]. split; [lia|].
  split; [exact Hcart|].
  rewrite Hcount. injection Hothers as <-. reflexivity.
Defined.

Lemma addToCart_keeps_snapshot_witness :
  let s := {| Cart.cart := [ line "p1" 999 3 1 ] |} in
  let prod := item_of "p1" 100 5 in
  Cart.find_item "p1" s = Some (line "p1" 999 3 1) /\
  Cart.cart (exec (Cart.addToCart prod) s) = [ line "p1" 999 3 2 ] /\
  List.map Cart.product (Cart.cart (exec (Cart.addToCart prod) s))
    = [ item_of "p1" 999 3 ] /\
  eval Cart.getCartTotal (exec (Cart.addToCart prod) s)
    = Normal (1998 : @number cents).
Proof.
  intros s prod.
  pose proof (CartFacts.addToCart_keeps_snapshot prod s (line "p1" 999 3 1) eq_refl)
    as (_ & Hexec & Hproducts & _).
  split; [reflexivity|]. split; [rewrite Hexec; reflexivity|].
  split; [exact Hproducts|]. rewrite Hexec. reflexivity.
Defined.

(** A login on a device that rejects writes. *)
Lemma login_write_failure_keeps_session_witness :
  let w := @Auth.boot read_only ∅ in
  (eval (@multiSet read_only (@Auth.user_entries codec "t1" alice)) (Auth.disk w)
     = Throw "disk full" /\
   Auth.store (exec (@Auth.loginUser read_only codec "t1" alice) w) = Auth.initial) /\
  (eval (@multiSet read_only (@Auth.admin_entries codec "t1" owner)) (Auth.disk w)
     = Throw "disk full" /\
   Auth.store (exec (@Auth.loginAdmin read_only codec "t1" owner) w) = Auth.initial).
Proof.
  intros w.
  pose proof (@AuthFacts.login_write_failure_keeps_session read_only codec
                "t1" alice owner "disk full" w) as [Huser Hadmin].
  split; (split; [reflexivity|]).
  - apply (proj1 (Huser eq_refl)).
  - apply (proj1 (Hadmin eq_refl)).
Defined.

Lemma login_predicates_witness :
  let w := @Auth.boot reliable ∅ in
  let w1 := exec (@Auth.loginUser reliable codec "t1" alice) w in
  let w2 := exec (@Auth.loginAdmin reliable codec "t2" owner) w1 in
  eval (@multiSet reliable (@Auth.user_entries codec "t1" alice)) (Auth.disk w)
    = Normal tt /\
  eval (@multiSet reliable (@Auth.admin_entries codec "t2" owner)) (Auth.disk w1)
    = Normal tt /\
  eval Auth.isCustomer w1 = Normal true /\
  eval Auth.isAdmin w1 = Normal false /\
  eval Auth.isCustomer w2 = Normal false /\
  eval Auth.isAdmin w2 = Normal true /\
  Auth.user (Auth.store w2) = None.
Proof.
  intros w w1 w2. split; [reflexivity|]. split; [reflexivity|].
  apply (@AuthFacts.login_predicates reliable codec "t1" "t2" alice owner w);
    reflexivity.
Defined.

(** On the reliable device the session survives a restart: what a login
    wrote is what [loadStoredAuth] restores into a fresh store. *)
Example restored_after_restart :
  let w := exec (@Auth.loginUser reliable codec "t1" alice) (@Auth.boot reliable ∅) in
  let w' := exec (@Auth.loadStoredAuth reliable codec) (@Auth.boot reliable (Auth.disk w)) in
  eval Auth.isCustomer w' = Normal true /\
  Auth.token (Auth.store w') = Some "t1".
Proof. vm_compute. split; reflexivity. Qed.

(** [loginAdmin] writes three keys and removes none: the device still
    holds the customer's [user_data] while the store's [user] is [null]. *)
Example user_data_left_on_device :
  let w := exec (@Auth.loginAdmin reliable codec "t2" owner)
             (exec (@Auth.loginUser reliable codec "t1" alice) (@Auth.boot reliable ∅)) in
  Auth.user (Auth.store w) = None /\
  (Auth.disk w : gmap string string) !! "user_data" = Some "u1".
Proof. vm_compute. split; reflexivity. Qed.

End Runs.

(* ===================================================================== *)
(** ** More about the cart store and its screens                         *)
(* ===================================================================== *)

Module CartMore.
Import Cart Screens CartFacts.

Section WithNumbers.
Context {Num : JsNumber}.

Implicit Types (s : CartStore) (l : list CartItem) (item : CartItem).

Lemma count_is_units s : eval getCartItemCount s = Normal (units (cart s)).
Proof. reflexivity. Qed.

Lemma units_cons item l : units (item :: l) = quantity item + units l.
Proof. unfold units. cbn [fold_left]. rewrite count_from. lia. Qed.

Lemma units_filter_split (f : CartItem -> bool) l :
  units l = units (List.filter f l) + units (List.filter (fun x => negb (f x)) l).
Proof.
  induction l as [|x l IH]; [reflexivity|].
  rewrite units_cons. cbn [List.filter].
  destruct (f x); cbn [negb]; rewrite units_cons; lia.
Qed.

Lemma units_bump_incr productId l :
  units (List.map (bump productId (fun it => quantity it + 1)) l)
  = units l + occurrences productId l.
Proof.
  unfold occurrences. induction l as [|x l IH]; [reflexivity|].
  cbn [List.map List.filter]. rewrite !units_cons, IH. unfold bump.
  destruct (has_id productId x); cbn [length quantity with_quantity];
    [rewrite Nat2Z.inj_succ|]; lia.
Qed.

(** With unique ids, the item found under an id is the only match. *)
Lemma matches_found_only productId l item :
  List.NoDup (ids l) ->
  List.find (has_id productId) l = Some item ->
  List.filter (has_id productId) l = [item].
Proof.
  induction l as [|x l IH]; cbn [List.find List.filter]; [discriminate|].
  intros Hnd Hfind. inversion Hnd as [|? ? Hx Hl]; subst.
  destruct (has_id productId x) eqn:Hhx.
  - injection Hfind as <-. f_equal.
    destruct (List.filter (has_id productId) l) as [|y rest] eqn:Hrest;
      [reflexivity|].
    exfalso. apply Hx.
    assert (In y (List.filter (has_id productId) l)) as Hy
      by (rewrite Hrest; now left).
    apply filter_In in Hy as [Hin Hid]. unfold ids. apply in_map_iff.
    exists y. apply has_id_true in Hid, Hhx. split; [congruence | exact Hin].
  - now apply IH.
Qed.

Lemma occurs_once productId l item :
  List.NoDup (ids l) ->
  List.find (has_id productId) l = Some item ->
  occurrences productId l = 1.
Proof.
  intros Hnd Hfind. unfold occurrences.
  now rewrite (matches_found_only _ _ _ Hnd Hfind).
Qed.

Lemma in_cart_is_found l item :
  List.NoDup (ids l) -> In item l ->
  List.find (has_id (id (product item))) l = Some item.
Proof.
  intros Hnd Hin.
  assert (Hid : has_id (id (product item)) item = true)
    by now apply has_id_true.
  destruct (present_when_matched _ _ _ Hin Hid) as [found Hfound].
  pose proof (found_is_only _ _ _ _ Hnd Hfound Hin Hid) as Heq.
  congruence.
Qed.

(** *** Product ids stay unique *)

Lemma perform_unique (c : call) s :
  List.NoDup (ids (cart s)) -> List.NoDup (ids (cart (exec (perform c) s))).
Proof.
  intros Hnd. destruct c as [prod | removed | updated q | ]; cbn [perform].
  - destruct (find_item (id prod) s) as [found|] eqn:Hfound.
    + rewrite (addToCart_present _ _ _ Hfound).
      destruct (quantity found >=? inventory prod); [exact Hnd|].
      simpl. now rewrite ids_bump.
    + rewrite (addToCart_absent _ _ Hfound).
      destruct (inventory prod =? 0); [exact Hnd|].
      simpl. now apply ids_snoc_unique.
  - simpl. now apply ids_filter_unique.
  - destruct (Z.eq_dec q 0) as [->|Hq].
    + rewrite updateCartQuantity_zero. simpl. now apply ids_filter_unique.
    + rewrite updateCartQuantity_nonzero by exact Hq.
      destruct (exceeds q _); [exact Hnd|].
      unfold set_quantity. simpl.
      change (fun item => if has_id updated item then with_quantity item q else item)
        with (bump updated (fun _ : CartItem => q)).
      now rewrite ids_bump.
  - constructor.
Qed.

(** X1. Whatever calls are made on the empty cart, and with whatever
    arguments, no two items of the cart ever share a product id. *)
Theorem ids_always_unique :
  forall calls : list call, List.NoDup (ids (cart (run calls initial))).
Proof.
  intros calls.
  assert (Hgen : forall s, List.NoDup (ids (cart s)) ->
                           List.NoDup (ids (cart (run calls s)))).
  { induction calls as [|c rest IH]; intros s Hnd; simpl; [exact Hnd|].
    apply IH, perform_unique, Hnd. }
  apply Hgen. constructor.
Qed.

(** *** Adding the same product again and again *)

Lemma add_again (prod : Product) (q : Z) (k : nat) :
  1 <= q <= inventory prod ->
  cart (run (repeat (AddToCart prod) k) {| cart := [ {| product := prod; quantity := q |} ] |})
  = [ {| product := prod; quantity := Z.min (q + Z.of_nat k) (inventory prod) |} ].
Proof.
  revert q. induction k as [|k IH]; intros q Hq.
  - simpl. rewrite Z.add_0_r, Z.min_l by lia. reflexivity.
  - cbn [repeat run perform].
    assert (Hfound : find_item (id prod)
                       {| cart := [ {| product := prod; quantity := q |} ] |}
                     = Some {| product := prod; quantity := q |}).
    { unfold find_item, has_id. simpl. now rewrite String.eqb_refl. }
    rewrite (addToCart_present _ _ _ Hfound). cbn [quantity].
    destruct (Z.geb_spec q (inventory prod)) as [Hfull|Hroom].
    + rewrite IH by exact Hq. f_equal. f_equal. lia.
    + cbn [cart List.map]. unfold bump, has_id. cbn [product].
      rewrite String.eqb_refl. unfold with_quantity. cbn [product quantity].
      rewrite IH by lia. f_equal. f_equal. lia.
Qed.

(** X2. Adding one product with a positive inventory [n] to the empty cart
    [k >= 1] times leaves a single item whose quantity is the smaller of
    [k] and [n]: the quantity grows by one per call up to the inventory and
    further calls change nothing. *)
Theorem addToCart_repeated :
  forall (prod : Product) (k : nat),
    inventory prod > 0 ->
    cart (run (repeat (AddToCart prod) (S k)) initial)
    = [ {| product := prod;
           quantity := Z.min (Z.of_nat (S k)) (inventory prod) |} ].
Proof.
  intros prod k Hpos. cbn [repeat run perform].
  rewrite (addToCart_absent prod initial eq_refl).
  destruct (Z.eqb_spec (inventory prod) 0) as [|_]; [lia|].
  cbn [cart initial app]. rewrite add_again by lia.
  f_equal. f_equal. lia.
Qed.

(** X3. Removing a product right after adding it gives back the cart as it
    was, whenever the cart held nothing under that id (whether or not the
    product was in stock). *)
Theorem add_then_remove :
  forall (prod : Product) s,
    find_item (id prod) s = None ->
    exec (removeFromCart (id prod)) (exec (addToCart prod) s) = s.
Proof.
  intros prod [l] Habsent. rewrite (addToCart_absent _ _ Habsent).
  unfold find_item in Habsent. simpl in Habsent.
  destruct (inventory prod =? 0); unfold removeFromCart, set, exec; simpl.
  - now rewrite absent_filter.
  - rewrite List.filter_app, absent_filter by exact Habsent. simpl.
    unfold has_id. simpl. rewrite String.eqb_refl. simpl.
    now rewrite app_nil_r.
Qed.

(** X4. After [removeFromCart(id)] nothing is found under the id, every
    other id is found as before, and the call changes nothing when the id
    was not in the cart. *)
Theorem removeFromCart_lookup :
  forall (productId : string) s,
    find_item productId (exec (removeFromCart productId) s) = None /\
    (forall other, other <> productId ->
       find_item other (exec (removeFromCart productId) s) = find_item other s) /\
    (find_item productId s = None -> exec (removeFromCart productId) s = s).
Proof.
  intros productId [l]. unfold find_item, removeFromCart, set, exec. simpl.
  split; [|split].
  - rewrite find_removed. now rewrite String.eqb_refl.
  - intros other Hne. rewrite find_removed.
    now destruct (String.eqb_spec other productId).
  - intros Habsent. now rewrite absent_filter.
Qed.

(** X5. In a cart with unique ids, removing the item found under an id
    lowers [getCartItemCount] by exactly the quantity of that item, and
    removes exactly one line. *)
Theorem removeFromCart_count :
  forall (productId : string) s item,
    List.NoDup (ids (cart s)) ->
    find_item productId s = Some item ->
    (exists n,
       eval getCartItemCount s = Normal n /\
       eval getCartItemCount (exec (removeFromCart productId) s)
         = Normal (n - quantity item)) /\
    S (length (cart (exec (removeFromCart productId) s))) = length (cart s).
Proof.
  intros productId s item Hnd Hfound. unfold find_item in Hfound.
  pose proof (matches_found_only _ _ _ Hnd Hfound) as Honly.
  split.
  - eexists. split; [apply count_is_units|]. rewrite count_is_units.
    f_equal. simpl.
    rewrite (units_filter_split (has_id productId) (cart s)), Honly.
    rewrite units_cons. change (units []) with 0. lia.
  - simpl.
    pose proof (List.filter_length (has_id productId) (cart s)) as Hlen.
    rewrite Honly in Hlen. simpl in Hlen. lia.
Qed.

(** X6. In a cart with unique ids, [addToCart] raises [getCartItemCount]
    by exactly one when it accepts the product (a new id in stock, or a
    known id whose quantity is below the inventory of the record given) and
    leaves the whole cart unchanged when it does not. *)
Theorem addToCart_count :
  forall (prod : Product) s,
    List.NoDup (ids (cart s)) ->
    (accepts s prod = true ->
     exists n,
       eval getCartItemCount s = Normal n /\
       eval getCartItemCount (exec (addToCart prod) s) = Normal (n + 1)) /\
    (accepts s prod = false -> exec (addToCart prod) s = s).
Proof.
  intros prod s Hnd. unfold accepts.
  destruct (find_item (id prod) s) as [found|] eqn:Hfound.
  - rewrite (addToCart_present _ _ _ Hfound).
    destruct (quantity found >=? inventory prod); simpl.
    + split; [discriminate | reflexivity].
    + split; [intros _ | discriminate].
      eexists. split; [apply count_is_units|]. rewrite count_is_units.
      simpl. rewrite units_bump_incr.
      now rewrite (occurs_once _ _ _ Hnd Hfound).
  - rewrite (addToCart_absent _ _ Hfound).
    destruct (inventory prod =? 0); simpl.
    + split; [discriminate | reflexivity].
    + split; [intros _ | discriminate].
      eexists. split; [apply count_is_units|]. rewrite count_is_units.
      simpl. unfold units. now rewrite fold_left_app.
Qed.

(** X20. In a cart with unique ids, an accepted [updateCartQuantity] (a
    non-zero quantity not above the inventory of the stored snapshot)
    changes [getCartItemCount] by the difference between the new quantity
    and the old one, and keeps the ids of the lines and their order. *)
Theorem updateCartQuantity_count :
  forall (productId : string) (q : Z) s item,
    List.NoDup (ids (cart s)) ->
    find_item productId s = Some item ->
    q <> 0 ->
    q <= inventory (product item) ->
    (exists n,
       eval getCartItemCount s = Normal n /\
       eval getCartItemCount (exec (updateCartQuantity productId q) s)
         = Normal (n - quantity item + q)) /\
    ids (cart (exec (updateCartQuantity productId q) s)) = ids (cart s).
Proof.
  intros productId q s item Hnd Hfound Hq Hle.
  rewrite updateCartQuantity_nonzero by exact Hq.
  rewrite Hfound. simpl.
  destruct (Z.gtb_spec q (inventory (product item))); [lia|].
  unfold find_item in Hfound. split.
  - eexists. split; [apply count_is_units|]. rewrite count_is_units.
    f_equal. cbn [cart]. unfold units at 1. rewrite count_set_quantity.
    fold (units (List.filter (fun it => negb (has_id productId it)) (cart s))).
    rewrite (occurs_once _ _ _ Hnd Hfound).
    rewrite (units_filter_split (has_id productId) (cart s)).
    rewrite (matches_found_only _ _ _ Hnd Hfound), units_cons.
    change (units []) with 0. lia.
  - cbn [cart]. unfold set_quantity.
    change (fun it => if has_id productId it then with_quantity it q else it)
      with (bump productId (fun _ : CartItem => q)).
    apply ids_bump.
Qed.

End WithNumbers.
End CartMore.

(* ===================================================================== *)
(** ** Facts about the screens                                           *)
(* ===================================================================== *)

Module ScreenFacts.
Import Cart Screens CartFacts CartMore.

Section WithNumbers.
Context {Num : JsNumber}.

Implicit Types (s : CartStore) (l : list CartItem) (item : CartItem).

Lemma set_quantity_bump productId q l :
  set_quantity productId q l = List.map (bump productId (fun _ => q)) l.
Proof. reflexivity. Qed.

Lemma set_quantity_twice productId q q' l :
  set_quantity productId q (set_quantity productId q' l) = set_quantity productId q l.
Proof.
  unfold set_quantity. rewrite List.map_map. apply List.map_ext. intros item.
  destruct (has_id productId item) eqn:Hid.
  - now rewrite has_id_with_quantity, Hid.
  - now rewrite Hid.
Qed.

Lemma filter_set_quantity productId q l :
  List.filter (fun item => negb (has_id productId item)) (set_quantity productId q l)
  = List.filter (fun item => negb (has_id productId item)) l.
Proof.
  unfold set_quantity. induction l as [|x l IH]; [reflexivity|].
  cbn [List.map List.filter]. destruct (has_id productId x) eqn:Hid.
  - rewrite has_id_with_quantity, Hid. exact IH.
  - rewrite Hid. cbn [negb]. now rewrite IH.
Qed.

(** X7. Two quantity updates of one id in a row: when the first quantity
    is not zero and the second one does not exceed the inventory of the
    stored snapshot, the result is that of the second update alone. *)
Theorem updateCartQuantity_last_wins :
  forall (productId : string) (q q' : Z) s,
    q' <> 0 ->
    exceeds q (option_map product (find_item productId s)) = false ->
    exec (updateCartQuantity productId q) (exec (updateCartQuantity productId q') s)
    = exec (updateCartQuantity productId q) s.
Proof.
  intros productId q q' s Hq' Hfits.
  rewrite (updateCartQuantity_nonzero productId q' s Hq').
  destruct (exceeds q' _); [reflexivity|].
  destruct (Z.eq_dec q 0) as [->|Hq].
  - rewrite !updateCartQuantity_zero. cbn [cart].
    now rewrite filter_set_quantity.
  - rewrite !updateCartQuantity_nonzero by exact Hq.
    rewrite Hfits. unfold find_item. cbn [cart].
    rewrite set_quantity_bump, find_bump.
    assert (exceeds q (option_map product
                         (option_map (bump productId (fun _ => q'))
                            (List.find (has_id productId) (cart s)))) = false) as ->.
    { unfold find_item in Hfits.
      destruct (List.find (has_id productId) (cart s)); [|reflexivity].
      simpl in *. now rewrite product_bump. }
    rewrite <- set_quantity_bump. now rewrite set_quantity_twice.
Qed.

(** *** The cart screen *)

Lemma press_row row (c : control) s :
  exec (press row c) s
  = match nth_error (cart s) row with
    | None => s
    | Some item =>
        match c with
        | Minus => exec (updateCartQuantity (id (product item)) (quantity item - 1)) s
        | Plus =>
            if plus_disabled item then s
            else exec (updateCartQuantity (id (product item)) (quantity item + 1)) s
        | Trash => exec (updateCartQuantity (id (product item)) 0) s
        end
    end.
Proof.
  unfold press, bind, get, exec. simpl.
  destruct (nth_error (cart s) row) as [item|]; [|reflexivity].
  destruct c; try reflexivity.
  now destruct (plus_disabled item).
Qed.

Lemma press_well_formed row (c : control) s :
  well_formed s -> well_formed (exec (press row c) s).
Proof.
  intros Hwf. rewrite press_row.
  destruct (nth_error (cart s) row) as [item|] eqn:Hrow; [|exact Hwf].
  assert (Hin : In item (cart s)) by (eapply nth_error_In; exact Hrow).
  assert (Hq : 1 <= quantity item <= inventory (product item)).
  { destruct Hwf as [_ Hb]. rewrite bounds_hold_spec in Hb. now apply Hb. }
  destruct c.
  - apply (perform_well_formed (UpdateCartQuantity _ _)); [exact Hwf|].
    apply Z.leb_le. lia.
  - destruct (plus_disabled item); [exact Hwf|].
    apply (perform_well_formed (UpdateCartQuantity _ _)); [exact Hwf|].
    apply Z.leb_le. lia.
  - apply (perform_well_formed (UpdateCartQuantity _ _)); [exact Hwf|].
    reflexivity.
Qed.

(** X8. Driven from the cart screen alone, the cart stays sound: starting
    from a cart with unique ids and every quantity between 1 and the
    inventory of its snapshot, any sequence of presses of the minus, plus
    and trash buttons of the rendered lines leaves such a cart.  In
    particular no press stores a zero or negative quantity. *)
Theorem cart_screen_keeps_bounds :
  forall (presses : list (nat * control)) s,
    well_formed s ->
    well_formed (press_all presses s).
Proof.
  induction presses as [|[row c] rest IH]; intros s Hwf; simpl.
  - exact Hwf.
  - apply IH, press_well_formed, Hwf.
Qed.

(** X9. What each button of a rendered line does, in a cart with unique
    ids and quantities within bounds: minus on a quantity above 1 lowers it
    by one, minus on quantity 1 and trash remove the line, and plus, when
    enabled, always raises the quantity by one (the store never refuses a
    press the screen allows). *)
Theorem cart_screen_buttons :
  forall (row : nat) s item,
    well_formed s ->
    nth_error (cart s) row = Some item ->
    (1 < quantity item ->
     cart (exec (press row Minus) s)
       = set_quantity (id (product item)) (quantity item - 1) (cart s) /\
     find_item (id (product item)) (exec (press row Minus) s)
       = Some (with_quantity item (quantity item - 1))) /\
    (quantity item = 1 ->
     exec (press row Minus) s = exec (removeFromCart (id (product item))) s) /\
    exec (press row Trash) s = exec (removeFromCart (id (product item))) s /\
    (plus_disabled item = false ->
     cart (exec (press row Plus) s)
       = set_quantity (id (product item)) (quantity item + 1) (cart s) /\
     find_item (id (product item)) (exec (press row Plus) s)
       = Some (with_quantity item (quantity item + 1))).
Proof.
  intros row s item [Hnd Hb] Hrow.
  assert (Hin : In item (cart s)) by (eapply nth_error_In; exact Hrow).
  assert (Hq : 1 <= quantity item <= inventory (product item)).
  { rewrite bounds_hold_spec in Hb. now apply Hb. }
  pose proof (in_cart_is_found _ _ Hnd Hin) as Hfound.
  rewrite !press_row, Hrow.
  assert (Hset : forall q, q <> 0 -> q <= inventory (product item) ->
            exec (updateCartQuantity (id (product item)) q) s
            = {| cart := set_quantity (id (product item)) q (cart s) |}).
  { intros q Hnz Hle. rewrite updateCartQuantity_nonzero by exact Hnz.
    unfold find_item. rewrite Hfound. simpl.
    destruct (Z.gtb_spec q (inventory (product item))); [lia | reflexivity]. }
  split; [|split; [|split]].
  - intros Hmany. rewrite Hset by lia. split; [reflexivity|].
    unfold find_item. simpl. now apply find_set_quantity.
  - intros Hone. rewrite Hone. reflexivity.
  - reflexivity.
  - intros Henabled. rewrite Henabled. unfold plus_disabled in Henabled.
    destruct (Z.geb_spec (quantity item) (inventory (product item)));
      [discriminate|].
    rewrite Hset by lia. split; [reflexivity|].
    unfold find_item. simpl. now apply find_set_quantity.
Qed.

(** X10. With every quantity within its bounds, [getCartItemCount] is at
    least the number of lines, so the count badge of the product list
    ([cartItemCount > 0]) shows exactly when the cart is not empty. *)
Theorem count_covers_lines :
  forall s,
    bounds_hold s = true ->
    exists n,
      eval getCartItemCount s = Normal n /\
      Z.of_nat (length (cart s)) <= n /\
      (0 < n <-> cart s <> []).
Proof.
  intros [l] Hb. exists (units l). split; [reflexivity|].
  rewrite bounds_hold_spec in Hb. simpl in *.
  assert (Hlen : Z.of_nat (length l) <= units l).
  { induction l as [|x l IH]; [reflexivity|].
    rewrite units_cons. cbn [length]. rewrite Nat2Z.inj_succ.
    pose proof (Hb x (or_introl eq_refl)).
    assert (Z.of_nat (length l) <= units l)
      by (apply IH; intros y Hy; apply Hb; now right).
    lia. }
  split; [exact Hlen|]. split.
  - intros Hpos ->. change (units []) with 0 in Hpos. lia.
  - intros Hne. destruct l as [|x l]; [contradiction|].
    cbn [length] in Hlen. lia.
Qed.

End WithNumbers.
End ScreenFacts.

(* ===================================================================== *)
(** ** More about the session store                                      *)
(* ===================================================================== *)

Module AuthMore.
Import Auth Session AuthFacts.

Section WithDevice.
Context {Storage : AsyncStorage} {J : Json}.

Implicit Types (w : World) (s : AuthStore).

(** *** Errors stay inside the actions *)

Lemma logged_not_thrown (body : js World unit) (message : string) w :
  eval (try_catch body (fun error => console_error message error)) w = Normal tt.
Proof.
  unfold eval, try_catch. destruct (body w) as [[[]|e] w']; reflexivity.
Qed.

(** X12. No action of the session store throws to its caller, whatever the
    device storage does and whatever it holds: a rejected storage call, a
    malformed answer or a malformed stored payload is caught inside the
    action. *)
Theorem actions_never_throw :
  forall (c : call) w, eval (perform c) w = Normal tt.
Proof.
  intros c w. destruct c; cbn [perform];
    unfold loginUser, loginAdmin, logout, loadStoredAuth;
    apply logged_not_thrown.
Qed.

(** *** Logging out *)

(** X13. [logout] clears the session only when the device accepts the
    removal of the four keys: then every field of the store is reset and
    both role predicates are false.  When the removal is rejected the
    session stays exactly as it was (still logged in if it was) and the
    error is written to the console. *)
Theorem logout_outcomes :
  forall w,
    (eval (multiRemove keys) (disk w) = Normal tt ->
     store (exec logout w) = initial /\
     eval isCustomer (exec logout w) = Normal false /\
     eval isAdmin (exec logout w) = Normal false) /\
    (forall e,
       eval (multiRemove keys) (disk w) = Throw e ->
       store (exec logout w) = store w /\
       console (exec logout w)
         = console w ++ [ String.append "Error clearing auth data:" e ]).
Proof.
  intros w. split.
  - intros Hok. apply await_resolved in Hok. unfold keys in Hok.
    assert (Hstore : store (exec logout w) = initial).
    { unfold logout, try_catch, bind, exec. rewrite Hok. reflexivity. }
    unfold isCustomer, isAdmin, get_store, bind, get, ret, eval. simpl.
    rewrite Hstore. repeat split.
  - intros e Hfail. apply await_rejected in Hfail as [d Hd]. unfold keys in Hd.
    unfold logout, try_catch, bind, exec. rewrite Hd. split; reflexivity.
Qed.

(** *** Restoring a session from the device *)

Lemma truthy_nonempty (text : string) : text <> "" -> truthy (Some text) = Some text.
Proof. intros Hne. unfold truthy. now apply String.eqb_neq in Hne as ->. Qed.

Lemma truthy_some (v : option string) (text : string) :
  truthy v = Some text -> v = Some text /\ text <> "".
Proof.
  unfold truthy. destruct v as [t|]; [|discriminate].
  destruct (String.eqb_spec t ""); [discriminate|]. now intros [= <-].
Qed.

(** [loadStoredAuth] once the device has answered with four pairs. *)
Ltac read_answer H :=
  apply await_resolved in H; unfold keys in H;
  unfold loadStoredAuth, try_catch, bind, exec, eval;
  rewrite H; cbn [lift value_at lookup list_lookup fst snd].

(** X14. [loadStoredAuth] restores what the device holds.  With a
    non-empty token, the role tag [customer] and a non-empty [user_data]
    that parses, the store becomes a logged-in customer session with the
    stored token and the parsed record; with the tag [admin] and a
    non-empty [admin_data] that parses, it becomes an admin session
    (whatever [user_data] is still on the device). *)
Theorem loadStoredAuth_restores :
  forall w (k0 k1 k2 k3 tok : string),
    tok <> "" ->
    (forall (payload : string) (other : option string) (parsed : option User),
       eval (multiGet keys) (disk w)
         = Normal [ (k0, Some tok); (k1, Some payload); (k2, other);
                    (k3, Some "customer") ] ->
       payload <> "" ->
       parse_user payload = Normal parsed ->
       store (exec loadStoredAuth w)
         = {| isLoggedIn := true; user := parsed; admin := None;
              token := Some tok; userType := Some customer |}) /\
    (forall (payload : string) (other : option string) (parsed : option Admin),
       eval (multiGet keys) (disk w)
         = Normal [ (k0, Some tok); (k1, other); (k2, Some payload);
                    (k3, Some "admin") ] ->
       payload <> "" ->
       parse_admin payload = Normal parsed ->
       store (exec loadStoredAuth w)
         = {| isLoggedIn := true; user := None; admin := parsed;
              token := Some tok; userType := Some admin_type |}).
Proof.
  intros w k0 k1 k2 k3 tok Htok. split.
  - intros payload other parsed Hread Hpayload Hparse. read_answer Hread.
    rewrite !truthy_nonempty by (exact Htok || exact Hpayload || discriminate).
    cbn [String.eqb Ascii.eqb Bool.eqb]. rewrite Hparse. reflexivity.
  - intros payload other parsed Hread Hpayload Hparse. read_answer Hread.
    rewrite (truthy_nonempty tok), (truthy_nonempty "admin"),
      (truthy_nonempty payload) by (assumption || discriminate).
    change (String.eqb "admin" "customer") with false.
    change (String.eqb "admin" "admin") with true.
    destruct (truthy other); cbn iota; rewrite Hparse; reflexivity.
Qed.

(** X15. With no token or no role tag on the device (missing or empty),
    [loadStoredAuth] changes nothing: the store, a fresh one or a live
    session alike, and the console are left as they were. *)
Theorem loadStoredAuth_nothing_stored :
  forall w (k0 k1 k2 k3 : string) (tok payload other type : option string),
    eval (multiGet keys) (disk w)
      = Normal [ (k0, tok); (k1, payload); (k2, other); (k3, type) ] ->
    truthy tok = None \/ truthy type = None ->
    store (exec loadStoredAuth w) = store w /\
    console (exec loadStoredAuth w) = console w.
Proof.
  intros w k0 k1 k2 k3 tok payload other type Hread Hmissing.
  read_answer Hread.
  destruct Hmissing as [Hnone|Hnone].
  - rewrite Hnone. split; reflexivity.
  - destruct (truthy tok); [rewrite Hnone|]; split; reflexivity.
Qed.

(** X16. A stored [user_data] that [JSON.parse] rejects does not touch the
    session: the store is unchanged, the error is written to the console
    and [loadStoredAuth] returns normally.  The same holds when the device
    rejects the read itself. *)
Theorem loadStoredAuth_failures :
  forall w (e : string),
    (forall (k0 k1 k2 k3 tok payload : string) (other : option string),
       eval (multiGet keys) (disk w)
         = Normal [ (k0, Some tok); (k1, Some payload); (k2, other);
                    (k3, Some "customer") ] ->
       tok <> "" -> payload <> "" ->
       parse_user payload = Throw e ->
       store (exec loadStoredAuth w) = store w /\
       console (exec loadStoredAuth w)
         = console w ++ [ String.append "Error loading stored auth data:" e ]) /\
    (eval (multiGet keys) (disk w) = Throw e ->
     store (exec loadStoredAuth w) = store w /\
     console (exec loadStoredAuth w)
       = console w ++ [ String.append "Error loading stored auth data:" e ]).
Proof.
  intros w e. split.
  - intros k0 k1 k2 k3 tok payload other Hread Htok Hpayload Hparse.
    read_answer Hread.
    rewrite !truthy_nonempty by (exact Htok || exact Hpayload || discriminate).
    cbn [String.eqb Ascii.eqb Bool.eqb]. rewrite Hparse. split; reflexivity.
  - intros Hfail. apply await_rejected in Hfail as [d Hd]. unfold keys in Hd.
    unfold loadStoredAuth, try_catch, bind, exec. rewrite Hd.
    split; reflexivity.
Qed.

(** [loadStoredAuth] keeps any property that holds of every session it
    can install. *)
Lemma loadStoredAuth_keeps (P : AuthStore -> Prop) :
  (forall (tok : string) (parsed : option User), tok <> "" ->
     P {| isLoggedIn := true; user := parsed; admin := None;
          token := Some tok; userType := Some customer |}) ->
  (forall (tok : string) (parsed : option Admin), tok <> "" ->
     P {| isLoggedIn := true; user := None; admin := parsed;
          token := Some tok; userType := Some admin_type |}) ->
  keeps P loadStoredAuth.
Proof.
  intros Hcustomer Hadmin. unfold loadStoredAuth.
  apply keeps_try_catch; [|intros e; apply keeps_console_error].
  apply keeps_bind; [apply keeps_await | intros storedData].
  apply keeps_bind; [apply keeps_lift | intros tok].
  apply keeps_bind; [apply keeps_lift | intros userData].
  apply keeps_bind; [apply keeps_lift | intros adminData].
  apply keeps_bind; [apply keeps_lift | intros type].
  destruct (truthy tok) as [tok'|] eqn:Htok; [|apply keeps_ret].
  apply truthy_some in Htok as [_ Htok].
  destruct (truthy type) as [type'|]; [|apply keeps_ret].
  assert (Hsecond :
    keeps P
      match String.eqb type' "admin", truthy adminData with
      | true, Some adminData' =>
          bind (lift (parse_admin adminData'))
            (fun parsed =>
               set_store {| isLoggedIn := true; token := Some tok';
                            admin := parsed; user := None;
                            userType := Some admin_type |})
      | _, _ => ret tt
      end).
  { destruct (String.eqb type' "admin"); [|apply keeps_ret].
    destruct (truthy adminData); [|apply keeps_ret].
    apply keeps_bind; [apply keeps_lift | intros parsed].
    apply keeps_set_store, Hadmin, Htok. }
  destruct (String.eqb type' "customer"); [|exact Hsecond].
  destruct (truthy userData); [|exact Hsecond].
  apply keeps_bind; [apply keeps_lift | intros parsed].
  apply keeps_set_store, Hcustomer, Htok.
Qed.

(** X17. [loadStoredAuth] never logs anybody out and never installs half a
    session: whatever the device answers, the store is either exactly what
    it was, or a logged-in session under a non-empty token with one role
    tag and no identity of the other role. *)
Theorem loadStoredAuth_all_or_nothing :
  forall w,
    store (exec loadStoredAuth w) = store w \/
    restored (store (exec loadStoredAuth w)).
Proof.
  intros w.
  apply (loadStoredAuth_keeps (fun s => s = store w \/ restored s));
    [| |now left].
  - intros tok parsed Htok. right. unfold restored. simpl.
    split; [reflexivity|]. split; [now exists tok|]. left. now split.
  - intros tok parsed Htok. right. unfold restored. simpl.
    split; [reflexivity|]. split; [now exists tok|]. right. now split.
Qed.

(** *** The login flag, the token and the role tag *)

Ltac keeps_all :=
  repeat (first [ apply keeps_try_catch | apply keeps_bind | apply keeps_await
                | apply keeps_lift | apply keeps_ret | apply keeps_console_error
                | apply keeps_set_store ]; intros).

Lemma perform_consistent (c : call) : keeps consistent (perform c).
Proof.
  destruct c; cbn [perform].
  - unfold loginUser. keeps_all.
    unfold consistent. simpl. now repeat split.
  - unfold loginAdmin. keeps_all.
    unfold consistent. simpl. now repeat split.
  - unfold logout. keeps_all.
    unfold consistent. simpl. now repeat split.
  - apply loadStoredAuth_keeps; intros tok parsed _;
      unfold consistent; simpl; now repeat split.
Qed.

(** X18. In every session reached from the initial one by any calls of the
    four actions, on any device: the store is logged in exactly when it
    holds a token and a role tag; a customer session holds no admin record
    and an admin session no user record; a logged-out store holds neither
    token nor role nor identity. *)
Theorem session_consistent :
  forall (calls : list call) (d : device),
    consistent (store (run calls (boot d))).
Proof.
  intros calls d.
  assert (Hgen : forall w, consistent (store w) -> consistent (store (run calls w))).
  { induction calls as [|c rest IH]; intros w Hw; simpl; [exact Hw|].
    apply IH, perform_consistent, Hw. }
  apply Hgen. unfold consistent. simpl. now repeat split.
Qed.

(** *** A login, a restart, a restore *)

(** X19. A customer session survives a restart when the device reads back
    what the login wrote and [JSON.parse] undoes [JSON.stringify]: for a
    non-empty token and a non-empty serialised record, [loadStoredAuth] on
    a freshly started store restores exactly the store that [loginUser]
    left. *)
Theorem session_survives_restart :
  forall (tok : string) (u : User) (other : option string) w,
    eval (multiSet (user_entries tok u)) (disk w) = Normal tt ->
    eval (multiGet keys) (exec (multiSet (user_entries tok u)) (disk w))
      = Normal [ ("auth_token", Some tok); ("user_data", Some (stringify_user u));
                 ("admin_data", other); ("user_type", Some "customer") ] ->
    tok <> "" ->
    stringify_user u <> "" ->
    parse_user (stringify_user u) = Normal (Some u) ->
    store (exec loadStoredAuth (boot (disk (exec (loginUser tok u) w))))
    = store (exec (loginUser tok u) w).
Proof.
  intros tok u other w Hwrite Hread Htok Hpayload Hparse.
  apply await_resolved in Hwrite. unfold user_entries in Hwrite.
  assert (Hlogin : exec (loginUser tok u) w
                   = {| store := {| isLoggedIn := true; user := Some u; admin := None;
                                    token := Some tok; userType := Some customer |};
                        disk := exec (multiSet (user_entries tok u)) (disk w);
                        console := console w |}).
  { unfold loginUser, try_catch, bind, exec at 1. rewrite Hwrite. reflexivity. }
  rewrite Hlogin. cbn [disk store].
  pose proof (await_resolved (multiGet keys) _
                (boot (exec (multiSet (user_entries tok u)) (disk w))) Hread)
    as Hawait.
  unfold keys in Hawait.
  unfold loadStoredAuth, try_catch, bind, exec at 1.
  rewrite Hawait. cbn [lift value_at lookup list_lookup fst snd].
  rewrite !truthy_nonempty by (exact Htok || exact Hpayload || discriminate).
  cbn [String.eqb Ascii.eqb Bool.eqb]. rewrite Hparse. reflexivity.
Qed.

End WithDevice.
End AuthMore.

(* ===================================================================== *)
(** ** The further facts on examples                                     *)
(* ===================================================================== *)

Module MoreRuns.
Import Samples MoreSamples.

Lemma addToCart_repeated_witness :
  let prod := item_of "p1" 999 3 in
  Cart.inventory prod > 0 /\
  Cart.cart (Cart.run (repeat (Cart.AddToCart prod) 5) Cart.initial)
    = [ line "p1" 999 3 3 ].
Proof.
  intros prod. split; [simpl; lia|].
  apply (CartMore.addToCart_repeated prod 4). simpl. lia.
Defined.

Lemma add_then_remove_witness :
  let prod := item_of "p3" 100 7 in
  Cart.find_item "p3" basket = None /\
  exec (Cart.removeFromCart "p3") (exec (Cart.addToCart prod) basket) = basket.
Proof.
  intros prod. split; [reflexivity|].
  apply (CartMore.add_then_remove prod basket). reflexivity.
Defined.

Lemma removeFromCart_lookup_witness :
  Cart.find_item "p1" (exec (Cart.removeFromCart "p1") basket) = None /\
  ("p2" <> "p1" /\
   Cart.find_item "p2" (exec (Cart.removeFromCart "p1") basket)
     = Some (line "p2" 250 5 2)) /\
  (Cart.find_item "p9" basket = None /\
   exec (Cart.removeFromCart "p9") basket = basket).
Proof.
  pose proof (CartMore.removeFromCart_lookup "p1" basket) as (Hgone & Hkept & _).
  pose proof (CartMore.removeFromCart_lookup "p9" basket) as (_ & _ & Hsame).
  split; [exact Hgone|]. split.
  - split; [discriminate|]. apply (Hkept "p2"). discriminate.
  - split; [reflexivity|]. apply Hsame. reflexivity.
Defined.

Lemma unique_basket : List.NoDup (Cart.ids (Cart.cart basket)).
Proof.
  repeat constructor; simpl; intuition discriminate.
Defined.

Lemma removeFromCart_count_witness :
  List.NoDup (Cart.ids (Cart.cart basket)) /\
  Cart.find_item "p2" basket = Some (line "p2" 250 5 2) /\
  eval Cart.getCartItemCount (exec (Cart.removeFromCart "p2") basket) = Normal 1 /\
  length (Cart.cart (exec (Cart.removeFromCart "p2") basket)) = 1%nat.
Proof.
  pose proof (CartMore.removeFromCart_count "p2" basket (line "p2" 250 5 2)
                unique_basket eq_refl) as ((n & Hn & Hcount) & Hlen).
  split; [exact unique_basket|]. split; [reflexivity|]. split.
  - rewrite Hcount. injection Hn as <-. reflexivity.
  - exact (eq_add_S _ _ Hlen).
Defined.

Lemma addToCart_count_witness :
  List.NoDup (Cart.ids (Cart.cart basket)) /\
  (Screens.accepts basket (item_of "p1" 999 3) = true /\
   eval Cart.getCartItemCount (exec (Cart.addToCart (item_of "p1" 999 3)) basket)
     = Normal 4) /\
  (Screens.accepts basket (item_of "p2" 250 2) = false /\
   exec (Cart.addToCart (item_of "p2" 250 2)) basket = basket).
Proof.
  pose proof (CartMore.addToCart_count (item_of "p1" 999 3) basket unique_basket)
    as (Hadded & _).
  pose proof (CartMore.addToCart_count (item_of "p2" 250 2) basket unique_basket)
    as (_ & Hrefused).
  split; [exact unique_basket|]. split.
  - split; [reflexivity|].
    destruct (Hadded eq_refl) as (n & Hn & Hcount).
    rewrite Hcount. injection Hn as <-. reflexivity.
  - split; [reflexivity|]. apply Hrefused. reflexivity.
Defined.

Lemma updateCartQuantity_count_witness :
  List.NoDup (Cart.ids (Cart.cart basket)) /\
  Cart.find_item "p2" basket = Some (line "p2" 250 5 2) /\
  5 <> 0 /\ 5 <= 5 /\
  eval Cart.getCartItemCount (exec (Cart.updateCartQuantity "p2" 5) basket)
    = Normal 6 /\
  Cart.ids (Cart.cart (exec (Cart.updateCartQuantity "p2" 5) basket)) = [ "p1"; "p2" ].
Proof.
  pose proof (CartMore.updateCartQuantity_count "p2" 5 basket (line "p2" 250 5 2)
                unique_basket eq_refl ltac:(lia) ltac:(simpl; lia))
    as ((n & Hn & Hcount) & Hids).
  split; [exact unique_basket|]. split; [reflexivity|].
  split; [lia|]. split; [lia|]. split.
  - rewrite Hcount. injection Hn as <-. reflexivity.
  - exact Hids.
Defined.

Lemma updateCartQuantity_last_wins_witness :
  4 <> 0 /\
  Cart.exceeds 2 (option_map Cart.product (Cart.find_item "p2" basket)) = false /\
  exec (Cart.updateCartQuantity "p2" 2) (exec (Cart.updateCartQuantity "p2" 4) basket)
  = exec (Cart.updateCartQuantity "p2" 2) basket.
Proof.
  split; [lia|]. split; [reflexivity|].
  apply (ScreenFacts.updateCartQuantity_last_wins "p2" 2 4 basket);
    [lia | reflexivity].
Defined.

Lemma well_formed_basket : Cart.well_formed basket.
Proof. split; [exact unique_basket | reflexivity]. Defined.

Lemma cart_screen_keeps_bounds_witness :
  let presses := [ (0%nat, Screens.Minus); (0%nat, Screens.Plus);
                   (0%nat, Screens.Plus); (1%nat, Screens.Trash);
                   (3%nat, Screens.Minus) ] in
  Cart.well_formed basket /\
  Cart.well_formed (Screens.press_all presses basket).
Proof.
  intros presses. split; [exact well_formed_basket|].
  apply (ScreenFacts.cart_screen_keeps_bounds presses basket well_formed_basket).
Defined.

Lemma cart_screen_buttons_witness :
  Cart.well_formed basket /\
  nth_error (Cart.cart basket) 1 = Some (line "p2" 250 5 2) /\
  1 < 2 /\
  Cart.cart (exec (Screens.press 1 Screens.Minus) basket)
    = [ line "p1" 999 3 1; line "p2" 250 5 1 ] /\
  exec (Screens.press 1 Screens.Trash) basket
    = exec (Cart.removeFromCart "p2") basket /\
  Screens.plus_disabled (line "p2" 250 5 2) = false /\
  Cart.cart (exec (Screens.press 1 Screens.Plus) basket)
    = [ line "p1" 999 3 1; line "p2" 250 5 3 ] /\
  nth_error (Cart.cart basket) 0 = Some (line "p1" 999 3 1) /\
  exec (Screens.press 0 Screens.Minus) basket
    = exec (Cart.removeFromCart "p1") basket.
Proof.
  pose proof (ScreenFacts.cart_screen_buttons 1 basket (line "p2" 250 5 2)
                well_formed_basket eq_refl) as (Hminus & _ & Htrash & Hplus).
  pose proof (ScreenFacts.cart_screen_buttons 0 basket (line "p1" 999 3 1)
                well_formed_basket eq_refl) as (_ & Hlast & _ & _).
  split; [exact well_formed_basket|]. split; [reflexivity|].
  split; [lia|]. split; [apply (proj1 (Hminus ltac:(simpl; lia)))|].
  split; [exact Htrash|]. split; [reflexivity|].
  split; [apply (proj1 (Hplus eq_refl))|].
  split; [reflexivity|]. apply Hlast. reflexivity.
Defined.

Lemma count_covers_lines_witness :
  Cart.bounds_hold basket = true /\
  exists n,
    eval Cart.getCartItemCount basket = Normal n /\
    Z.of_nat (length (Cart.cart basket)) <= n /\
    (0 < n <-> Cart.cart basket <> []).
Proof.
  split; [reflexivity|].
  apply (ScreenFacts.count_covers_lines basket). reflexivity.
Defined.

(** A logged-in customer on the reliable device and on the offline one. *)
Lemma logout_outcomes_witness :
  let w := exec (@Auth.loginUser reliable codec "t1" alice) (@Auth.boot reliable ∅) in
  let stuck := {| Auth.store := Auth.store w; Auth.disk := (tt : @device offline);
                  Auth.console := [] |} in
  (eval (@multiRemove reliable Session.keys) (Auth.disk w) = Normal tt /\
   Auth.store (exec (@Auth.logout reliable) w) = Auth.initial) /\
  (eval (@multiRemove offline Session.keys) (Auth.disk stuck)
     = Throw "storage unavailable" /\
   Auth.store (exec (@Auth.logout offline) stuck) = Auth.store w /\
   Auth.console (exec (@Auth.logout offline) stuck)
     = [ "Error clearing auth data:storage unavailable" ]).
Proof.
  intros w stuck.
  pose proof (@AuthMore.logout_outcomes reliable w) as (Hcleared & _).
  pose proof (@AuthMore.logout_outcomes offline stuck) as (_ & Hkept).
  split.
  - split; [reflexivity|]. apply (proj1 (Hcleared eq_refl)).
  - split; [reflexivity|]. destruct (Hkept "storage unavailable" eq_refl) as [Hs Hc].
    split; [exact Hs | exact Hc].
Defined.

Lemma loadStoredAuth_restores_witness :
  let customer_disk :=
    holding [ ("auth_token", "t1"); ("user_data", "u1"); ("user_type", "customer") ] in
  let admin_disk :=
    holding [ ("auth_token", "t2"); ("user_data", "u1"); ("admin_data", "a1");
              ("user_type", "admin") ] in
  "t1" <> "" /\ "t2" <> "" /\
  eval (@multiGet reliable Session.keys) customer_disk
    = Normal [ ("auth_token", Some "t1"); ("user_data", Some "u1");
               ("admin_data", None); ("user_type", Some "customer") ] /\
  Auth.store (exec (@Auth.loadStoredAuth reliable codec) (@Auth.boot reliable customer_disk))
    = {| Auth.isLoggedIn := true;
         Auth.user := Some {| Auth.id := "u1"; Auth.name := ""; Auth.phone := "" |};
         Auth.admin := None; Auth.token := Some "t1";
         Auth.userType := Some Auth.customer |} /\
  eval (@multiGet reliable Session.keys) admin_disk
    = Normal [ ("auth_token", Some "t2"); ("user_data", Some "u1");
               ("admin_data", Some "a1"); ("user_type", Some "admin") ] /\
  Auth.store (exec (@Auth.loadStoredAuth reliable codec) (@Auth.boot reliable admin_disk))
    = {| Auth.isLoggedIn := true; Auth.user := None;
         Auth.admin := Some {| Auth.admin_id := "a1"; Auth.username := "";
                               Auth.full_name := "" |};
         Auth.token := Some "t2"; Auth.userType := Some Auth.admin_type |}.
Proof.
  intros customer_disk admin_disk.
  assert (Hread1 : eval (@multiGet reliable Session.keys) customer_disk
            = Normal [ ("auth_token", Some "t1"); ("user_data", Some "u1");
                       ("admin_data", None); ("user_type", Some "customer") ])
    by (vm_compute; reflexivity).
  assert (Hread2 : eval (@multiGet reliable Session.keys) admin_disk
            = Normal [ ("auth_token", Some "t2"); ("user_data", Some "u1");
                       ("admin_data", Some "a1"); ("user_type", Some "admin") ])
    by (vm_compute; reflexivity).
  assert (H1 : "t1" <> "") by discriminate.
  assert (H2 : "t2" <> "") by discriminate.
  pose proof (@AuthMore.loadStoredAuth_restores reliable codec
                (@Auth.boot reliable customer_disk)
                "auth_token" "user_data" "admin_data" "user_type" "t1" H1)
    as (Hcustomer & _).
  pose proof (@AuthMore.loadStoredAuth_restores reliable codec
                (@Auth.boot reliable admin_disk)
                "auth_token" "user_data" "admin_data" "user_type" "t2" H2)
    as (_ & Hadmin).
  split; [exact H1|]. split; [exact H2|]. split; [exact Hread1|]. split.
  - apply (Hcustomer "u1" None _ Hread1); [discriminate | reflexivity].
  - split; [exact Hread2|].
    apply (Hadmin "a1" (Some "u1") _ Hread2); [discriminate | reflexivity].
Defined.

Lemma loadStoredAuth_nothing_stored_witness :
  let w := @Auth.boot reliable ∅ in
  eval (@multiGet reliable Session.keys) (Auth.disk w)
    = Normal [ ("auth_token", None); ("user_data", None);
               ("admin_data", None); ("user_type", None) ] /\
  Auth.truthy None = None /\
  Auth.store (exec (@Auth.loadStoredAuth reliable codec) w) = Auth.initial /\
  Auth.console (exec (@Auth.loadStoredAuth reliable codec) w) = [].
Proof.
  intros w.
  assert (Hread : eval (@multiGet reliable Session.keys) (Auth.disk w)
            = Normal [ ("auth_token", None); ("user_data", None);
                       ("admin_data", None); ("user_type", None) ])
    by (vm_compute; reflexivity).
  split; [exact Hread|]. split; [reflexivity|].
  apply (@AuthMore.loadStoredAuth_nothing_stored reliable codec w _ _ _ _ _ _ _ _ Hread).
  left. reflexivity.
Defined.

Lemma loadStoredAuth_failures_witness :
  let d := holding [ ("auth_token", "t1"); ("user_data", "oops");
                     ("user_type", "customer") ] in
  let w := @Auth.boot reliable d in
  let down := @Auth.boot offline tt in
  (eval (@multiGet reliable Session.keys) d
     = Normal [ ("auth_token", Some "t1"); ("user_data", Some "oops");
                ("admin_data", None); ("user_type", Some "customer") ] /\
   @Auth.parse_user braces "oops" = Throw "SyntaxError" /\
   Auth.store (exec (@Auth.loadStoredAuth reliable braces) w) = Auth.initial /\
   Auth.console (exec (@Auth.loadStoredAuth reliable braces) w)
     = [ "Error loading stored auth data:SyntaxError" ]) /\
  (eval (@multiGet offline Session.keys) (Auth.disk down) = Throw "storage unavailable" /\
   Auth.store (exec (@Auth.loadStoredAuth offline braces) down) = Auth.initial).
Proof.
  intros d w down.
  assert (Hread : eval (@multiGet reliable Session.keys) d
            = Normal [ ("auth_token", Some "t1"); ("user_data", Some "oops");
                       ("admin_data", None); ("user_type", Some "customer") ])
    by (vm_compute; reflexivity).
  pose proof (@AuthMore.loadStoredAuth_failures reliable braces w "SyntaxError")
    as (Hparse & _).
  pose proof (@AuthMore.loadStoredAuth_failures offline braces down
                "storage unavailable") as (_ & Hdown).
  split.
  - split; [exact Hread|]. split; [reflexivity|].
    apply (Hparse _ _ _ _ "t1" "oops" None Hread);
      [discriminate | discriminate | reflexivity].
  - split; [reflexivity|]. apply (proj1 (Hdown eq_refl)).
Defined.

Lemma session_survives_restart_witness :
  let w := @Auth.boot reliable ∅ in
  eval (@multiSet reliable (@Auth.user_entries braces "t1" guest)) (Auth.disk w)
    = Normal tt /\
  eval (@multiGet reliable Session.keys)
    (exec (@multiSet reliable (@Auth.user_entries braces "t1" guest)) (Auth.disk w))
    = Normal [ ("auth_token", Some "t1");
               ("user_data", Some (@Auth.stringify_user braces guest));
               ("admin_data", None); ("user_type", Some "customer") ] /\
  "t1" <> "" /\
  @Auth.stringify_user braces guest <> "" /\
  @Auth.parse_user braces (@Auth.stringify_user braces guest) = Normal (Some guest) /\
  Auth.store (exec (@Auth.loadStoredAuth reliable braces)
                (@Auth.boot reliable
                   (Auth.disk (exec (@Auth.loginUser reliable braces "t1" guest) w))))
  = Auth.store (exec (@Auth.loginUser reliable braces "t1" guest) w).
Proof.
  intros w.
  assert (Hread : eval (@multiGet reliable Session.keys)
            (exec (@multiSet reliable (@Auth.user_entries braces "t1" guest))
               (Auth.disk w))
            = Normal [ ("auth_token", Some "t1");
                       ("user_data", Some (@Auth.stringify_user braces guest));
                       ("admin_data", None); ("user_type", Some "customer") ])
    by (vm_compute; reflexivity).
  split; [reflexivity|]. split; [exact Hread|].
  split; [discriminate|]. split; [discriminate|]. split; [reflexivity|].
  apply (@AuthMore.session_survives_restart reliable braces "t1" guest None w
           eq_refl Hread); [discriminate | discriminate | reflexivity].
Defined.

End MoreRuns.
